(** * roboflow/models/inference.py: the InferenceModel client

    A shallow embedding of [InferenceModel] (constructor, request builder,
    [predict], [predict_video], [poll_for_video_results],
    [poll_until_video_results]) and the properties of its specification.

    Python values are modelled by the types they have in the source: text as
    [string], the parsed JSON of a response as [json], a dict whose insertion
    order reaches the wire (the query parameters) as an association list.
    Exceptions are values of [exn]; every method that performs I/O is a
    function from the history of events to a result and the extended history.
    Library and remote behaviour (urllib, requests, PIL, the file system, the
    remote service) are Section variables. *)

From Stdlib Require Import String Ascii List ZArith Lia Bool DecimalString.
Import ListNotations.
Local Open Scope string_scope.
Local Open Scope Z_scope.

Set Implicit Arguments.

(** ** Python values *)

(** A float as [json.loads] can produce it ([NaN] and [Infinity] included). *)
Inductive pyfloat : Type :=
| FFinite (mantissa exponent : Z)
| FInf (negative : bool)
| FNaN.

(** The value of [response.json()]. A [JObj] lists the entries of the dict in
    insertion order. *)
#[warnings="-register-all"]
Inductive json : Type :=
| JNull
| JBool (b : bool)
| JInt (z : Z)
| JFloat (f : pyfloat)
| JStr (s : string)
| JArr (items : list json)
| JObj (entries : list (string * json)).

(** The exceptions the module raises or lets through. *)
Inductive exn : Type :=
| Exception (msg : string)
| IndexError
| KeyError (key : string)
| TypeError
| AttributeError (attr : string)
| UnboundLocalError (var : string)
| JSONDecodeError
| HTTPError (status_code : Z)
| RequestException (msg : string)
| ImageError (msg : string).

(** A computation that returns or raises. *)
Inductive result (A : Type) : Type :=
| Ok (a : A)
| Raise (e : exn).
Arguments Ok {A} a.
Arguments Raise {A} e.

(** ** dicts with string keys, in insertion order *)

Section Dict.
Variable V : Type.

Definition dict : Type := list (string * V).

Fixpoint dict_get (d : dict) (k : string) : option V :=
  match d with
  | [] => None
  | (k', v) :: d' => if String.eqb k k' then Some v else dict_get d' k
  end.

(** [d[k] = v]: an existing key keeps its position. *)
Fixpoint dict_set (d : dict) (k : string) (v : V) : dict :=
  match d with
  | [] => [(k, v)]
  | (k', v') :: d' =>
      if String.eqb k k' then (k', v) :: d' else (k', v') :: dict_set d' k v
  end.

(** [d.update] with the keyword arguments [kw]: its entries are assigned in
    order. *)
Definition dict_update (d kw : dict) : dict :=
  fold_left (fun acc kv => dict_set acc (fst kv) (snd kv)) kw d.

Definition dict_keys (d : dict) : list string := map fst d.
End Dict.

(** [str(n)] for an int. *)
Definition py_str_int (z : Z) : string := NilZero.string_of_int (Z.to_int z).

(** [s.rsplit(sep)] with a one-character separator and no [maxsplit]: the
    pieces between the occurrences of [sep], one more than there are
    occurrences. *)
Fixpoint rsplit (sep : ascii) (s : string) : list string :=
  match s with
  | EmptyString => [EmptyString]
  | String c rest =>
      match rsplit sep rest with
      | [] => [String c EmptyString]
      | seg :: segs =>
          if Ascii.eqb c sep then EmptyString :: seg :: segs
          else String c seg :: segs
      end
  end.

(** How often [sep] occurs in [s]. *)
Fixpoint occurrences (sep : ascii) (s : string) : nat :=
  match s with
  | EmptyString => 0
  | String c rest =>
      (if Ascii.eqb c sep then 1 else 0) + occurrences sep rest
  end.

(** [sep.join(pieces)]. *)
Fixpoint join (sep : ascii) (pieces : list string) : string :=
  match pieces with
  | [] => EmptyString
  | [piece] => piece
  | piece :: rest => piece ++ String sep (join sep rest)
  end.

(** [l[i]] on a list. *)
Definition py_index {A : Type} (l : list A) (i : nat) : result A :=
  match nth_error l i with
  | Some a => Ok a
  | None => Raise IndexError
  end.

(** [j[key]] where [j] came out of [response.json()]. *)
Definition py_subscript (j : json) (key : string) : result json :=
  match j with
  | JObj entries =>
      match dict_get entries key with
      | Some v => Ok v
      | None => Raise (KeyError key)
      end
  | _ => Raise TypeError
  end.

(** [j.get(key)]: [None] for a missing key; only a dict has [get]. *)
Definition py_get (j : json) (key : string) : result json :=
  match j with
  | JObj entries =>
      match dict_get entries key with
      | Some v => Ok v
      | None => Ok JNull
      end
  | _ => Raise (AttributeError "get")
  end.

(** [v != 0]: Python compares numbers by value and [False == 0]. *)
Definition py_ne_zero (v : json) : bool :=
  match v with
  | JInt z => negb (z =? 0)
  | JBool b => b
  | JFloat (FFinite m _) => negb (m =? 0)
  | _ => true
  end.

(** [v != {}]. *)
Definition py_ne_empty_dict (v : json) : bool :=
  match v with
  | JObj [] => false
  | _ => true
  end.

(** ** The client object *)

Definition SUPPORTED_ROBOFLOW_MODELS : list string := ["batch-video"].

Definition model_descriptor (model_id model_version inference_type : json) : json :=
  JObj [("model_id", model_id); ("model_version", model_version);
        ("inference_type", inference_type)].

Definition SUPPORTED_ADDITIONAL_MODELS : dict json :=
  [("clip", model_descriptor (JStr "clip") (JStr "1") (JStr "clip-embed-image"));
   ("gaze", model_descriptor (JStr "gaze") (JStr "1") (JStr "gaze-detection"))].

(** The attributes of an instance. [class_name] is [self.__class__.__name__];
    [api_url] is set by the subclasses; [type] and [job_id] exist only once
    [predict_video] has assigned them. *)
Record InferenceModel : Type := {
  class_name : string;
  api_key : string;
  id : string;
  dataset_id : string;
  version : string;
  colors : dict string;
  api_url : option string;
  type : option string;
  job_id : option json
}.

(** [self.job_id], where an argument of a method hides the name. *)
Definition self_job_id (o : InferenceModel) : option json := job_id o.

(** [InferenceModel.__init__], run for an instance of class [cls]. *)
Definition InferenceModel_init (cls : string) (api_key version_id : string)
    (colors : option (dict string)) : result InferenceModel :=
  let version_info := rsplit "/" version_id in
  match py_index version_info 1 with
  | Raise e => Raise e
  | Ok dataset_id =>
      match py_index version_info 2 with
      | Raise e => Raise e
      | Ok version =>
          Ok {| class_name := cls; api_key := api_key; id := version_id;
                dataset_id := dataset_id; version := version;
                colors := match colors with None => [] | Some c => c end;
                api_url := None; type := None; job_id := None |}
      end
  end.


(** ** The outside world *)

Inductive method : Type := GET | POST | PUT.

(** One part of a multipart body: [fields={name: (filename, content,
    content_type)}]. *)
Record multipart_field : Type := {
  field_name : string;
  file_name : string;
  file_content : list Byte.byte;
  file_content_type : string
}.

(** A [MultipartEncoder]; the boundary is drawn when it is created. *)
Record MultipartEncoder : Type := {
  fields : list multipart_field;
  boundary_value : string
}.

Definition content_type (data : MultipartEncoder) : string :=
  "multipart/form-data; boundary=" ++ boundary_value data.

(** What goes into [data=]. [JsonText j] is the text [json.dumps(j)]. *)
Inductive body : Type :=
| NoBody
| JsonText (j : json)
| RawBytes (b : list Byte.byte)
| Multipart (m : MultipartEncoder).

Record request : Type := {
  req_method : method;
  req_url : string;
  req_headers : dict string;
  req_data : body
}.

(** A response: its status and what [.json()] gives ([None]: the body is not
    JSON and [.json()] raises). *)
Record response : Type := {
  status_code : Z;
  json_body : option json
}.

(** What the program does to the world, in order. *)
Inductive event : Type :=
| EHttp (r : request)
| ESleep (seconds : Z)
| EPrint (line : string).

Definition history : Type := list event.

(** The instance and the events so far. *)
Record state : Type := {
  self : InferenceModel;
  events : history
}.

(** ** Computations over the state that may raise *)

Definition M (A : Type) : Type := state -> result A * state.

Definition ret {A : Type} (a : A) : M A := fun st => (Ok a, st).

Definition raise {A : Type} (e : exn) : M A := fun st => (Raise e, st).

Definition bind {A B : Type} (m : M A) (k : A -> M B) : M B :=
  fun st =>
    match m st with
    | (Ok a, st') => k a st'
    | (Raise e, st') => (Raise e, st')
    end.

Definition lift {A : Type} (r : result A) : M A := fun st => (r, st).

Declare Scope py_scope.
Delimit Scope py_scope with py.
Notation "x <- m ;; k" := (bind m (fun x => k))
  (at level 61, m at next level, right associativity) : py_scope.
Notation "m ;; k" := (bind m (fun _ => k))
  (at level 61, right associativity) : py_scope.
Local Open Scope py_scope.

(** [str(e)]. *)
Definition exn_str (e : exn) : string :=
  match e with
  | Exception msg => msg
  | IndexError => "list index out of range"
  | KeyError key => "'" ++ key ++ "'"
  | TypeError => "TypeError"
  | AttributeError attr => "object has no attribute '" ++ attr ++ "'"
  | UnboundLocalError var =>
      "cannot access local variable '" ++ var
      ++ "' where it is not associated with a value"
  | JSONDecodeError => "Expecting value"
  | HTTPError code => py_str_int code ++ " Error"
  | RequestException msg => msg
  | ImageError msg => msg
  end.

(** [try: m  except Exception as e: raise Exception(f"{prefix}{e}")]. *)
Definition try_wrap {A : Type} (prefix : string) (m : M A) : M A :=
  fun st =>
    match m st with
    | (Raise e, st') => (Raise (Exception (prefix ++ exn_str e)), st')
    | r => r
    end.

(** Reading an attribute that may not have been assigned yet. *)
Definition getattr {A : Type} (f : InferenceModel -> option A) (name : string) : M A :=
  fun st =>
    match f (self st) with
    | Some a => (Ok a, st)
    | None => (Raise (AttributeError name), st)
    end.

Definition get_self : M InferenceModel := fun st => (Ok (self st), st).

(** [self.type = v] and [self.job_id = v]. *)
Definition set_type (v : string) : M unit :=
  fun st =>
    let o := self st in
    (Ok tt, {| self := {| class_name := class_name o; api_key := api_key o;
                          id := id o; dataset_id := dataset_id o;
                          version := version o; colors := colors o;
                          api_url := api_url o; type := Some v;
                          job_id := job_id o |};
               events := events st |}).

Definition set_job_id (v : json) : M unit :=
  fun st =>
    let o := self st in
    (Ok tt, {| self := {| class_name := class_name o; api_key := api_key o;
                          id := id o; dataset_id := dataset_id o;
                          version := version o; colors := colors o;
                          api_url := api_url o; type := type o;
                          job_id := Some v |};
               events := events st |}).

(** The state once [e] has happened. *)
Definition after (e : event) (st : state) : state :=
  {| self := self st; events := (events st ++ [e])%list |}.

Definition emit (e : event) : M unit := fun st => (Ok tt, after e st).

(** [print(line)] and [time.sleep(seconds)]. *)
Definition print (line : string) : M unit := emit (EPrint line).
Definition time_sleep (seconds : Z) : M unit := emit (ESleep seconds).

(** [text + v] where [v] must be a str. *)
Definition str_concat (text : string) (v : json) : result string :=
  match v with
  | JStr s => Ok (text ++ s)
  | _ => Raise TypeError
  end.

(** [s.startswith(prefixes)] for a tuple of prefixes. *)
Definition startswith (s : string) (prefixes : list string) : bool :=
  existsb (fun p => String.prefix p s) prefixes.

(** [x in l] for a list of str. *)
Definition str_in (x : string) (l : list string) : bool :=
  existsb (String.eqb x) l.

(** The keyword arguments the request builder prepares for [requests.post]:
    [{}] or [{"data": ..., "headers": ...}]. *)
Record request_kwargs : Type := {
  kw_data : option MultipartEncoder;
  kw_headers : option (dict string)
}.

Definition no_kwargs : request_kwargs := {| kw_data := None; kw_headers := None |}.

(** ** The methods of [InferenceModel] *)

Section Client.

(** [roboflow.config.API_URL]. *)
Variable API_URL : string.

(** [urllib.parse]: [urljoin], [urlparse(s).scheme], [urlencode]. *)
Variable urljoin : string -> string -> string.
Variable urlparse_scheme : string -> string.
Variable urlencode : dict string -> string.

(** The remote side: what an HTTP request gets, given all that happened
    before it. [inl msg]: [requests] raises, with [msg] as its text. *)
Variable server : history -> request -> string + response.

(** The file system: the bytes of a file, or the text of the [OSError]. *)
Variable read_file : string -> string + list Byte.byte.
Variable path_exists : string -> bool.

(** Whether a reference is a well-formed http(s) URL, as the validation of
    image references sees it. *)
Variable well_formed_url : string -> bool.

(** PIL: [Image.open], [image.size] as (width, height), and the bytes
    [image.save(buffer, quality=q, format=f)] writes. *)
Variable image : Type.
Variable Image_open : string -> result image.
Variable image_size : image -> Z * Z.
Variable image_save : image -> Z -> string -> result (list Byte.byte).

(** The boundary a new [MultipartEncoder] draws. *)
Variable new_boundary : string.

(** [roboflow.util.prediction.PredictionGroup.create_prediction_group]. *)
Variable PredictionGroup : Type.
Variable create_prediction_group :
  json -> string -> option string -> dict string -> dict string ->
  result PredictionGroup.

(** *** requests *)

(** [requests.request(method, url, headers=..., data=...)]: the request is
    sent, and recorded whether or not it is answered. *)
Definition requests_request (m : method) (url : string)
    (headers : dict string) (data : body) : M response :=
  fun st =>
    let r := {| req_method := m; req_url := url; req_headers := headers;
                req_data := data |} in
    match server (events st) r with
    | inr resp => (Ok resp, after (EHttp r) st)
    | inl msg => (Raise (RequestException msg), after (EHttp r) st)
    end.

(** A URL that came out of a JSON document: [requests] refuses, before it
    sends anything, what is not a str. *)
Definition url_of_json (u : json) : M string :=
  match u with
  | JStr s => ret s
  | _ => raise (RequestException "Invalid URL")
  end.

(** [response.json()]. *)
Definition response_json (resp : response) : M json :=
  match json_body resp with
  | Some j => ret j
  | None => raise JSONDecodeError
  end.

(** [response.raise_for_status()]. *)
Definition raise_for_status (resp : response) : M unit :=
  if (400 <=? status_code resp) && (status_code resp <? 600)
  then raise (HTTPError (status_code resp))
  else ret tt.

(** *** The request builder *)

(** Modelled from the spec: [roboflow.util.image_utils.validate_image_path],
    which is not among the sources. The reference has to be non-empty and
    either an existing local file or a well-formed http(s) URL, else the
    call fails; it does no network I/O. *)
Definition validate_image_path (image_path : string) : result unit :=
  if negb (String.eqb image_path "")
     && (path_exists image_path || well_formed_url image_path)
  then Ok tt
  else Raise (Exception ("Image does not exist at " ++ image_path ++ "!")).

(** [InferenceModel.__get_image_params]: query parameters, keyword
    arguments for [requests.post], image dimensions. *)
Definition get_image_params (image_path : string)
    : result (dict string * request_kwargs * dict string) :=
  match validate_image_path image_path with
  | Raise e => Raise e
  | Ok _ =>
      let hosted_image := str_in (urlparse_scheme image_path) ["http"; "https"] in
      if hosted_image then
        let image_dims := [("width", "Undefined"); ("height", "Undefined")] in
        Ok ([("image", image_path)], no_kwargs, image_dims)
      else
        match Image_open image_path with
        | Raise e => Raise e
        | Ok img =>
            let dimensions := image_size img in
            let image_dims := [("width", py_str_int (fst dimensions));
                               ("height", py_str_int (snd dimensions))] in
            match image_save img 90 "JPEG" with
            | Raise e => Raise e
            | Ok buffered =>
                let data :=
                  {| fields := [{| field_name := "file";
                                   file_name := "imageToUpload";
                                   file_content := buffered;
                                   file_content_type := "image/jpeg" |}];
                     boundary_value := new_boundary |} in
                Ok ([],
                    {| kw_data := Some data;
                       kw_headers := Some [("Content-Type", content_type data)] |},
                    image_dims)
            end
        end
  end.

(** *** predict *)

(** [requests.post(url, **request_kwargs)]. *)
Definition requests_post (url : string) (kw : request_kwargs) : M response :=
  requests_request POST url
    (match kw_headers kw with Some h => h | None => [] end)
    (match kw_data kw with Some d => Multipart d | None => NoBody end).

(** The query parameters [predict] encodes: the builder's, then [api_key],
    then the caller's keyword arguments. *)
Definition predict_params (o : InferenceModel) (params kwargs : dict string)
    : dict string :=
  let params := dict_set params "api_key" (api_key o) in
  dict_update params kwargs.

Definition predict (image_path : string) (prediction_type : option string)
    (kwargs : dict string) : M PredictionGroup :=
  built <- lift (get_image_params image_path) ;;
  let '(params, request_kwargs, image_dims) := built in
  o <- get_self ;;
  let params := predict_params o params kwargs in
  base <- getattr api_url "api_url" ;;
  let url := base ++ "?" ++ urlencode params in
  response <- requests_post url request_kwargs ;;
  raise_for_status response ;;
  payload <- response_json response ;;
  lift (create_prediction_group payload image_path prediction_type
          image_dims (colors o)).

(** *** predict_video *)

(** [for model in additional_models: if model not in
    SUPPORTED_ADDITIONAL_MODELS: raise ...]. *)
Fixpoint check_additional_models (additional_models : list string) : result unit :=
  match additional_models with
  | [] => Ok tt
  | model :: rest =>
      if negb (str_in model (dict_keys SUPPORTED_ADDITIONAL_MODELS))
      then Raise (Exception ("Model " ++ model
                             ++ " is not supported for video inference."))
      else check_additional_models rest
  end.

(** [for model in additional_models:
    models.append(SUPPORTED_ADDITIONAL_MODELS[model])]. *)
Fixpoint append_additional_models (models : list json)
    (additional_models : list string) : result (list json) :=
  match additional_models with
  | [] => Ok models
  | model :: rest =>
      match dict_get SUPPORTED_ADDITIONAL_MODELS model with
      | Some descriptor =>
          append_additional_models (models ++ [descriptor])%list rest
      | None => Raise (KeyError model)
      end
  end.

(** The inference type that goes with the class of the instance. *)
Definition resolve_type (model_class : string) : result string :=
  if String.eqb model_class "ObjectDetectionModel" then Ok "object-detection"
  else if String.eqb model_class "ClassificationModel" then Ok "classification"
  else if String.eqb model_class "InstanceSegmentationModel"
       then Ok "instance-segmentation"
  else Raise (Exception "Model type not supported for video inference.").

(** [with open(video_path, "rb") as f: video_data = f.read()]. *)
Definition open_read (video_path : string) : M (list Byte.byte) :=
  match read_file video_path with
  | inr data => ret data
  | inl msg => raise (Exception msg)
  end.

(** Reading a local variable that is assigned on some paths only. *)
Definition local_var {A : Type} (v : option A) (name : string) : M A :=
  match v with
  | Some a => ret a
  | None => raise (UnboundLocalError name)
  end.

(** The branch for a local file: ask for a signed URL, read the file, PUT
    it. Gives [signed_url] and the last value of [headers]. *)
Definition upload_video (url video_path : string) (payload : body)
    : M (json * dict string) :=
  let headers := [("Content-Type", "application/json")] in
  response <- try_wrap "Error uploading video: "
                (requests_request POST url headers payload) ;;
  answer <- response_json response ;;
  signed_url <- lift (py_subscript answer "signed_url") ;;
  let headers := [("Content-Type", "application/octet-stream")] in
  video_data <- try_wrap "Error reading video: " (open_read video_path) ;;
  try_wrap "There was an error uploading the video: "
    (target <- url_of_json signed_url ;;
     requests_request PUT target headers (RawBytes video_data)) ;;
  ret (signed_url, headers).

Definition predict_video (video_path : string) (fps : Z)
    (additional_models : list string) (prediction_type : string)
    : M (json * json) :=
  o <- get_self ;;
  let url := urljoin API_URL ("/video_upload_signed_url?api_key=" ++ api_key o) in
  if fps >? 5 then raise (Exception "FPS must be less than or equal to 5.") else
  lift (check_additional_models additional_models) ;;
  if negb (str_in prediction_type SUPPORTED_ROBOFLOW_MODELS)
  then raise (Exception (prediction_type ++ " is not supported for video inference."))
  else
  let model_class := class_name o in
  resolved <- lift (resolve_type model_class) ;;
  set_type resolved ;;
  let payload := JsonText (JObj [("file_name", JStr video_path)]) in
  source <-
    (if negb (startswith video_path ["http://"; "https://"])
     then
       uploaded <- upload_video url video_path payload ;;
       ret (fst uploaded, Some (snd uploaded))
     else ret (JStr video_path, None)) ;;
  let '(signed_url, headers) := source in
  let url := urljoin API_URL ("/videoinfer/?api_key=" ++ api_key o) in
  inference_type <- getattr type "type" ;;
  let models := [model_descriptor (JStr (dataset_id o)) (JStr (version o))
                   (JStr inference_type)] in
  models <- lift (append_additional_models models additional_models) ;;
  let payload := JsonText (JObj [("input_url", signed_url);
                                 ("infer_fps", JInt 5);
                                 ("models", JArr models)]) in
  headers <- local_var headers "headers" ;;
  response <- requests_request POST url headers payload ;;
  answer <- response_json response ;;
  job_id <- lift (py_subscript answer "job_id") ;;
  set_job_id job_id ;;
  ret (job_id, signed_url).

(** *** Polling *)

Definition poll_for_video_results (job_id : option string) : M json :=
  (match job_id with
   | None => getattr self_job_id "job_id"
   | Some j => ret (JStr j)
   end) ;;
  o <- get_self ;;
  cached <- getattr self_job_id "job_id" ;;
  query <- lift (str_concat ("/videoinfer/?api_key=" ++ api_key o ++ "&job_id=")
                   cached) ;;
  let url := urljoin API_URL query in
  response <- requests_request GET url
                [("Content-Type", "application/json")] NoBody ;;
  data <- response_json response ;;
  status <- lift (py_get data "status") ;;
  if py_ne_zero status then ret (JObj []) else
  output_signed_url <- lift (py_subscript data "output_signed_url") ;;
  target <- url_of_json output_signed_url ;;
  inference_data <- requests_request GET target
                      [("Content-Type", "application/json")] NoBody ;;
  response_json inference_data.

(** The line printed before each attempt. *)
Definition progress_line (attempts : Z) : string :=
  "(" ++ py_str_int (attempts * 60) ++ "s): Checking for inference results".

(** The body of the loop up to the test: the progress line, one single
    poll (called without a job id), the sleep. *)
Definition poll_round (attempts : Z) : M json :=
  print (progress_line attempts) ;;
  response <- poll_for_video_results None ;;
  time_sleep 60 ;;
  ret response.

(** The [while True] loop, run for at most [fuel] rounds; [None] when the
    rounds are used up before the loop returns. *)
Fixpoint poll_loop (fuel : nat) (attempts : Z) (st : state)
    : option (result json * state) :=
  match fuel with
  | O => None
  | S fuel' =>
      match poll_round attempts st with
      | (Raise e, st') => Some (Raise e, st')
      | (Ok response, st') =>
          let attempts := attempts + 1 in
          if py_ne_empty_dict response then Some (Ok response, st')
          else poll_loop fuel' attempts st'
      end
  end.

Definition poll_until_video_results (fuel : nat) (job_id : option string)
    (st : state) : option (result json * state) :=
  match (match job_id with
         | None => getattr self_job_id "job_id"
         | Some j => ret (JStr j)
         end) st with
  | (Raise e, st') => Some (Raise e, st')
  | (Ok _, st') => poll_loop fuel 0 st'
  end.

(** [n] attempts in a row, the first with the counter at [attempts], in
    which the single poll returns [{}]: each attempt is made once its
    progress line is out, the next one once the sleep is over. *)
Inductive idle_polls : nat -> Z -> state -> state -> Prop :=
| idle_done attempts st : idle_polls 0 attempts st st
| idle_step n attempts st st1 st2 :
    poll_for_video_results None (after (EPrint (progress_line attempts)) st)
    = (Ok (JObj []), st1) ->
    idle_polls n (attempts + 1) (after (ESleep 60) st1) st2 ->
    idle_polls (S n) attempts st st2.

End Client.

(** ** Reading a history *)

Definition is_sleep (e : event) : bool :=
  match e with ESleep _ => true | _ => false end.

Definition is_print (e : event) : bool :=
  match e with EPrint _ => true | _ => false end.

Definition count (p : event -> bool) (h : history) : nat := length (filter p h).

(** [m] leaves the instance as it is and adds nothing but requests to the
    history. *)
Definition only_requests {A : Type} (m : M A) : Prop :=
  forall st r st',
    m st = (r, st') ->
    self st' = self st
    /\ exists reqs, events st' = (events st ++ map EHttp reqs)%list.

(** The requests of a history, oldest first. *)
Definition http_requests (h : history) : list request :=
  flat_map (fun e => match e with EHttp r => [r] | _ => [] end) h.

(** The status request for the job [job]. *)
Definition status_request (API_URL : string) (urljoin : string -> string -> string)
    (o : InferenceModel) (job : string) : request :=
  {| req_method := GET;
     req_url := urljoin API_URL
                  (("/videoinfer/?api_key=" ++ api_key o ++ "&job_id=") ++ job);
     req_headers := [("Content-Type", "application/json")];
     req_data := NoBody |}.

(** [descriptor] is the static descriptor of the additional model [model]. *)
Definition supported_descriptor (model : string) (descriptor : json) : Prop :=
  dict_get SUPPORTED_ADDITIONAL_MODELS model = Some descriptor.

(** The request for a signed upload URL, the upload, the job submission. *)
Definition signed_url_request (API_URL : string)
    (urljoin : string -> string -> string) (o : InferenceModel)
    (video_path : string) : request :=
  {| req_method := POST;
     req_url := urljoin API_URL ("/video_upload_signed_url?api_key=" ++ api_key o);
     req_headers := [("Content-Type", "application/json")];
     req_data := JsonText (JObj [("file_name", JStr video_path)]) |}.

Definition upload_request (target : string) (video_data : list Byte.byte) : request :=
  {| req_method := PUT; req_url := target;
     req_headers := [("Content-Type", "application/octet-stream")];
     req_data := RawBytes video_data |}.

Definition submission_request (API_URL : string)
    (urljoin : string -> string -> string) (o : InferenceModel)
    (input_url : json) (models : list json) : request :=
  {| req_method := POST;
     req_url := urljoin API_URL ("/videoinfer/?api_key=" ++ api_key o);
     req_headers := [("Content-Type", "application/octet-stream")];
     req_data := JsonText (JObj [("input_url", input_url);
                                 ("infer_fps", JInt 5);
                                 ("models", JArr models)]) |}.

Definition results_request (target : string) : request :=
  {| req_method := GET; req_url := target;
     req_headers := [("Content-Type", "application/json")];
     req_data := NoBody |}.

(** ** Concrete worlds

    A configured object-detection client, small stand-ins for the libraries
    on the inputs used below, and remote services that answer by script. *)

Module Scenario.

Definition API_URL : string := "https://api.roboflow.com".

(** [urljoin] of an origin and an absolute path with a query. *)
Definition urljoin (base reference : string) : string := base ++ reference.

(** [urlparse(s).scheme] for references that start with a lower-case
    scheme or have none. *)
Definition urlparse_scheme (s : string) : string :=
  if String.prefix "http://" s then "http"
  else if String.prefix "https://" s then "https"
  else "".

(** [urlencode] for keys and values of letters and digits, which it leaves
    as they are. *)
Fixpoint urlencode (params : dict string) : string :=
  match params with
  | [] => ""
  | [(k, v)] => k ++ "=" ++ v
  | (k, v) :: rest => k ++ "=" ++ v ++ "&" ++ urlencode rest
  end.

Definition path_exists (path : string) : bool :=
  str_in path ["cat.jpg"; "logo.png"; "v.mp4"].

Definition well_formed_url (s : string) : bool :=
  str_in (urlparse_scheme s) ["http"; "https"].

Definition read_file (path : string) : string + list Byte.byte :=
  if String.eqb path "v.mp4" then inr [Byte.x00; Byte.x00; Byte.x00; Byte.x18]
  else inl ("No such file or directory: '" ++ path ++ "'").

(** A decoded image: its size and its mode. *)
Record picture : Type := {
  width : Z;
  height : Z;
  mode : string
}.

Definition Image_open (path : string) : result picture :=
  if String.eqb path "cat.jpg"
  then Ok {| width := 200; height := 150; mode := "RGB" |}
  else if String.eqb path "logo.png"
  then Ok {| width := 64; height := 64; mode := "RGBA" |}
  else Raise (ImageError ("cannot identify image file '" ++ path ++ "'")).

Definition image_size (img : picture) : Z * Z := (width img, height img).

(** JPEG has no alpha channel: PIL refuses to write an RGBA image. *)
Definition image_save (img : picture) (quality : Z) (format : string)
    : result (list Byte.byte) :=
  if String.eqb (mode img) "RGBA"
  then Raise (ImageError "cannot write mode RGBA as JPEG")
  else Ok [Byte.xff; Byte.xd8; Byte.xff; Byte.xd9].

Definition new_boundary : string := "0123456789abcdef".

(** What [create_prediction_group] is given. *)
Record prediction_group : Type := {
  pg_json : json;
  pg_image_path : string;
  pg_prediction_type : option string;
  pg_image_dims : dict string;
  pg_colors : dict string
}.

Definition create_prediction_group (payload : json) (image_path : string)
    (prediction_type : option string) (image_dims colors : dict string)
    : result prediction_group :=
  Ok {| pg_json := payload; pg_image_path := image_path;
        pg_prediction_type := prediction_type; pg_image_dims := image_dims;
        pg_colors := colors |}.

(** An [ObjectDetectionModel] for "ws/ds/3". *)
Definition client : InferenceModel :=
  {| class_name := "ObjectDetectionModel"; api_key := "KEY"; id := "ws/ds/3";
     dataset_id := "ds"; version := "3"; colors := [];
     api_url := Some "https://detect.roboflow.com/ds/3";
     type := None; job_id := None |}.

(** The same client once [predict_video] has cached the job "abc123". *)
Definition client_with_job : InferenceModel :=
  {| class_name := "ObjectDetectionModel"; api_key := "KEY"; id := "ws/ds/3";
     dataset_id := "ds"; version := "3"; colors := [];
     api_url := Some "https://detect.roboflow.com/ds/3";
     type := Some "object-detection"; job_id := Some (JStr "abc123") |}.

Definition fresh (o : InferenceModel) : state := {| self := o; events := [] |}.

Definition answer (j : json) : string + response :=
  inr {| status_code := 200; json_body := Some j |}.

Definition frames : json := JObj [("frame_0", JObj [])].

(** The inference endpoint answers every request with no predictions. *)
Definition inference_server (h : history) (r : request) : string + response :=
  answer (JObj [("predictions", JArr [])]).

(** The video endpoints: a signed upload URL, the upload, the job. *)
Definition video_server (h : history) (r : request) : string + response :=
  match req_method r with
  | PUT => inr {| status_code := 200; json_body := None |}
  | _ =>
      if String.prefix "https://api.roboflow.com/video_upload_signed_url" (req_url r)
      then answer (JObj [("signed_url", JStr "https://storage.example/upload/v.mp4")])
      else answer (JObj [("job_id", JStr "abc123")])
  end.

(** The status endpoint says [status] and points to "http://x", where the
    frames are. *)
Definition status_server (status : Z) (h : history) (r : request)
    : string + response :=
  if String.eqb (req_url r) "http://x" then answer frames
  else answer (JObj [("status", JInt status);
                     ("output_signed_url", JStr "http://x")]).

(** The status endpoint says only [{"status": 0}]. *)
Definition bare_status_server (h : history) (r : request) : string + response :=
  answer (JObj [("status", JInt 0)]).

(** Not ready for the first two status requests, ready from the third on.
    The service reports a finished job as status 0. *)
Definition pending_twice_server (h : history) (r : request) : string + response :=
  if String.eqb (req_url r) "http://x" then answer frames
  else if (length (http_requests h) <? 2)%nat
  then answer (JObj [("status", JInt 1)])
  else answer (JObj [("status", JInt 0); ("output_signed_url", JStr "http://x")]).

End Scenario.

(** ** What a method may do to the state *)

(** [m] leaves the instance as it is and adds at most [n] requests, and
    nothing else, to the history. *)
Definition requests_at_most (n : nat) {A : Type} (m : M A) : Prop :=
  forall st r st',
    m st = (r, st') ->
    self st' = self st
    /\ exists reqs,
         events st' = (events st ++ map EHttp reqs)%list
         /\ (length reqs <= n)%nat.

(** The attributes the constructor (and, for [api_url], the subclass) sets. *)
Definition same_configuration (o o' : InferenceModel) : Prop :=
  class_name o' = class_name o
  /\ api_key o' = api_key o
  /\ id o' = id o
  /\ dataset_id o' = dataset_id o
  /\ version o' = version o
  /\ colors o' = colors o
  /\ api_url o' = api_url o.

(** [m] adds at most [n] requests and nothing else to the history, keeps the
    configuration and [self.type], and assigns [self.job_id] only when it
    returns, to the job id it returns. *)
Definition submits (n : nat) (m : M (json * json)) : Prop :=
  forall st r st',
    m st = (r, st') ->
    same_configuration (self st) (self st')
    /\ type (self st') = type (self st)
    /\ (exists reqs,
          events st' = (events st ++ map EHttp reqs)%list
          /\ (length reqs <= n)%nat)
    /\ match r with
       | Ok (job, _) => self_job_id (self st') = Some job
       | Raise _ => self_job_id (self st') = self_job_id (self st)
       end.

(** The progress lines of the first [k] attempts. *)
Definition progress_lines (k : nat) : list event :=
  map (fun i => EPrint (progress_line (Z.of_nat i))) (seq 0 k).

(** ** Remote services that fail *)

Module Failures.

(** No request gets through. *)
Definition refusing_server (h : history) (r : request) : string + response :=
  inl "Connection refused".

(** The video endpoints answer, the storage behind the signed URL does not. *)
Definition put_refusing_server (h : history) (r : request) : string + response :=
  match req_method r with
  | PUT => inl "Connection reset by peer"
  | _ => Scenario.video_server h r
  end.

(** Every request is answered with status 500 and a JSON error. *)
Definition error_server (h : history) (r : request) : string + response :=
  inr {| status_code := 500;
         json_body := Some (JObj [("message", JStr "Internal Server Error")]) |}.

(** The video endpoints, with a number as the job id. *)
Definition numeric_job_server (h : history) (r : request) : string + response :=
  match req_method r with
  | PUT => inr {| status_code := 200; json_body := None |}
  | _ =>
      if String.prefix "https://api.roboflow.com/video_upload_signed_url" (req_url r)
      then Scenario.answer
             (JObj [("signed_url", JStr "https://storage.example/upload/v.mp4")])
      else Scenario.answer (JObj [("job_id", JInt 7)])
  end.

(** An instance of the base class, which has no inference type. *)
Definition base_client : InferenceModel :=
  {| class_name := "InferenceModel"; api_key := "KEY"; id := "ws/ds/3";
     dataset_id := "ds"; version := "3"; colors := [];
     api_url := None; type := None; job_id := None |}.

End Failures.

(** * Properties *)

Unset Implicit Arguments.

(** ** Facts about dicts *)

Section DictFacts.
Variable V : Type.
Implicit Types (d kw : dict V) (k : string) (v : V).

Lemma dict_get_set_same d k v : dict_get (dict_set d k v) k = Some v.
Proof.
  induction d as [|[k' v'] d IH]; simpl.
  - now rewrite String.eqb_refl.
  - destruct (String.eqb k k') eqn:E; simpl; rewrite E; auto.
Qed.

Lemma dict_get_set_other d k k' v :
  k <> k' -> dict_get (dict_set d k v) k' = dict_get d k'.
Proof.
  intros Hne. induction d as [|[k0 v0] d IH]; simpl.
  - destruct (String.eqb_spec k' k); congruence.
  - destruct (String.eqb_spec k k0) as [->|]; simpl.
    + destruct (String.eqb_spec k' k0); congruence.
    + now rewrite IH.
Qed.

Lemma dict_get_absent d k : ~ In k (dict_keys d) -> dict_get d k = None.
Proof.
  induction d as [|[k' v'] d IH]; simpl; intros Hn; auto.
  destruct (String.eqb_spec k k') as [->|]; [tauto | apply IH; tauto].
Qed.

(** A key the keyword arguments do not mention keeps its value. *)
Lemma dict_get_update_absent kw : forall d k,
  dict_get kw k = None -> dict_get (dict_update d kw) k = dict_get d k.
Proof.
  unfold dict_update.
  induction kw as [|[k1 v1] kw IH]; simpl; intros d k Hk; auto.
  destruct (String.eqb_spec k k1) as [Heq|Hne]; [discriminate|].
  rewrite IH by assumption. apply dict_get_set_other. congruence.
Qed.

(** A key the keyword arguments mention gets their value. *)
Lemma dict_get_update_present kw : forall d k v,
  NoDup (dict_keys kw) -> dict_get kw k = Some v ->
  dict_get (dict_update d kw) k = Some v.
Proof.
  unfold dict_update.
  induction kw as [|[k1 v1] kw IH]; simpl; intros d k v Hnd Hk; [discriminate|].
  inversion Hnd as [|? ? Hnotin Hnd']; subst.
  destruct (String.eqb_spec k k1) as [Heq|Hne].
  - subst k1. injection Hk as Hv. subst v1.
    change (dict_get (dict_update (dict_set d k v) kw) k = Some v).
    rewrite dict_get_update_absent by now apply dict_get_absent.
    apply dict_get_set_same.
  - now apply IH.
Qed.
End DictFacts.

(** ** Facts about [rsplit] *)

(** There is one more piece than there are separators. *)
Lemma rsplit_length sep s : length (rsplit sep s) = S (occurrences sep s).
Proof.
  induction s as [|c s IH]; simpl; auto.
  destruct (rsplit sep s) as [|seg segs]; [discriminate|].
  simpl in IH. destruct (Ascii.eqb c sep); simpl; lia.
Qed.

(** No piece holds a separator, and the pieces joined by the separator are
    the string again: [rsplit] cuts at every separator and nowhere else. *)
Lemma rsplit_pieces sep s :
  Forall (fun piece => occurrences sep piece = 0%nat) (rsplit sep s).
Proof.
  induction s as [|c s IH]; simpl; [repeat constructor|].
  pose proof (rsplit_length sep s) as Hlen.
  destruct (rsplit sep s) as [|seg segs]; [discriminate Hlen|].
  inversion IH as [|? ? Hseg Hsegs]; subst.
  destruct (Ascii.eqb c sep) eqn:E.
  - constructor; [reflexivity | now constructor].
  - constructor; [simpl; now rewrite E | assumption].
Qed.

Lemma rsplit_join sep s : join sep (rsplit sep s) = s.
Proof.
  induction s as [|c s IH]; simpl; auto.
  destruct (rsplit sep s) as [|seg segs] eqn:Hsplit;
    [simpl in IH; now subst s|].
  destruct (Ascii.eqb_spec c sep) as [->|Hne].
  - change (join sep (EmptyString :: seg :: segs))
      with (String sep (join sep (seg :: segs))).
    now rewrite IH.
  - destruct segs as [|seg' segs]; simpl in *; now rewrite IH.
Qed.

(** ** The constructor *)

(** C5, as the code has it: constructing the client succeeds exactly when the
    model identifier splits on "/" into at least three pieces; on success
    [dataset_id] and [version] are the second and the third piece, whatever
    follows them; with fewer than three pieces the construction fails with an
    [IndexError]. *)
Theorem init_needs_at_least_three_segments cls key version_id colors :
  let version_info := rsplit "/" version_id in
  ((exists o, InferenceModel_init cls key version_id colors = Ok o)
   <-> (3 <= length version_info)%nat)
  /\ (forall o, InferenceModel_init cls key version_id colors = Ok o ->
        nth_error version_info 1 = Some (dataset_id o)
        /\ nth_error version_info 2 = Some (version o))
  /\ ((length version_info < 3)%nat ->
        InferenceModel_init cls key version_id colors = Raise IndexError).
Proof.
  intros version_info. unfold InferenceModel_init. fold version_info.
  destruct version_info as [|a [|b [|c rest]]]; simpl.
  1-3: split; [split; [intros [x Hx]; discriminate | lia]|];
       split; [intros x Hx; discriminate | reflexivity].
  split; [split; [lia | intros _; eexists; reflexivity]|].
  split; [|lia].
  intros x Hx. injection Hx as Hx. subst x. split; reflexivity.
Qed.

Lemma init_needs_at_least_three_segments_witness :
  (exists o, InferenceModel_init "ObjectDetectionModel" "KEY" "ws/ds/3" None = Ok o
             /\ dataset_id o = "ds" /\ version o = "3")
  /\ InferenceModel_init "ObjectDetectionModel" "KEY" "ws/ds" None = Raise IndexError.
Proof.
  split.
  - destruct (init_needs_at_least_three_segments
                "ObjectDetectionModel" "KEY" "ws/ds/3" None) as (Hiff & Hseg & _).
    destruct (proj2 Hiff) as [o Ho]; [simpl; lia|].
    exists o. split; [exact Ho|].
    destruct (Hseg o Ho) as [H1 H2]. simpl in H1, H2. split; congruence.
  - apply (init_needs_at_least_three_segments "ObjectDetectionModel" "KEY" "ws/ds" None).
    simpl. lia.
Defined.

(** An identifier of four pieces is accepted, so "exactly three" is not what
    the constructor asks for. *)
Lemma init_four_segments_counterexample :
  ~ ((exists o, InferenceModel_init "ObjectDetectionModel" "KEY" "ws/ds/3/extra" None = Ok o)
     <-> length (rsplit "/" "ws/ds/3/extra") = 3%nat).
Proof.
  intros [H _].
  assert (Hex : exists o, InferenceModel_init "ObjectDetectionModel" "KEY"
                            "ws/ds/3/extra" None = Ok o)
    by (eexists; reflexivity).
  apply H in Hex. discriminate Hex.
Qed.

(** ** The request builder *)

Section BuilderProperties.
Context (urlparse_scheme : string -> string)
        (path_exists well_formed_url : string -> bool)
        (image : Type)
        (Image_open : string -> result image)
        (image_size : image -> Z * Z)
        (image_save : image -> Z -> string -> result (list Byte.byte))
        (new_boundary : string).


(** C7, as the code has it: for every image reference that passes the
    validation and is an http(s) URL, the request builder returns query
    parameters that hold that URL under "image", no request body (no
    keyword arguments at all), and dimensions whose width and height are
    both the string "Undefined". *)
Theorem hosted_image_params image_path :
  validate_image_path path_exists well_formed_url image_path = Ok tt ->
  str_in (urlparse_scheme image_path) ["http"; "https"] = true ->
  get_image_params urlparse_scheme path_exists well_formed_url
    Image_open image_size image_save new_boundary image_path =
    Ok ([("image", image_path)], no_kwargs,
        [("width", "Undefined"); ("height", "Undefined")]).
Proof.
  intros Hvalid Hhosted. unfold get_image_params.
  rewrite Hvalid, Hhosted. reflexivity.
Qed.


End BuilderProperties.

Lemma hosted_image_params_witness :
  get_image_params Scenario.urlparse_scheme Scenario.path_exists
    Scenario.well_formed_url Scenario.Image_open Scenario.image_size
    Scenario.image_save Scenario.new_boundary "https://example.com/cat.jpg"
  = Ok ([("image", "https://example.com/cat.jpg")], no_kwargs,
        [("width", "Undefined"); ("height", "Undefined")]).
Proof.
  apply (hosted_image_params Scenario.urlparse_scheme Scenario.path_exists
           Scenario.well_formed_url Scenario.picture Scenario.Image_open Scenario.image_size
           Scenario.image_save Scenario.new_boundary "https://example.com/cat.jpg");
    reflexivity.
Defined.

(** For a hosted image the dimensions are "Undefined", not "unknown". *)
Lemma hosted_image_dims_counterexample :
  ~ (exists params kw dims,
       get_image_params Scenario.urlparse_scheme Scenario.path_exists
         Scenario.well_formed_url Scenario.Image_open Scenario.image_size
         Scenario.image_save Scenario.new_boundary "https://example.com/cat.jpg"
       = Ok (params, kw, dims)
       /\ dict_get dims "width" = Some "unknown"
       /\ dict_get dims "height" = Some "unknown").
Proof.
  intros (params & kw & dims & Hrun & Hw & _).
  vm_compute in Hrun. injection Hrun as _ _ <-. discriminate Hw.
Qed.




(** ** predict *)

Section PredictProperties.
Context (urlparse_scheme : string -> string)
        (urlencode : dict string -> string)
        (server : history -> request -> string + response)
        (path_exists well_formed_url : string -> bool)
        (image : Type)
        (Image_open : string -> result image)
        (image_size : image -> Z * Z)
        (image_save : image -> Z -> string -> result (list Byte.byte))
        (new_boundary : string)
        (PredictionGroup : Type)
        (create_prediction_group :
           json -> string -> option string -> dict string -> dict string ->
           result PredictionGroup).


(** What follows the POST in [predict] leaves the state alone. *)
Lemma after_post_state_unchanged (resp : response) image_path prediction_type
    image_dims (o : InferenceModel) (st : state) :
  snd ((raise_for_status resp ;;
        payload <- response_json resp ;;
        lift (create_prediction_group payload image_path prediction_type
                image_dims (colors o))) st) = st.
Proof.
  unfold bind, raise_for_status, response_json, lift, raise, ret.
  destruct ((400 <=? status_code resp) && (status_code resp <? 600));
    [reflexivity|].
  destruct (json_body resp); reflexivity.
Qed.

(** C4, as the code has it: [predict] issues one POST whose query string
    encodes the builder's parameters, then [api_key], then the caller's
    keyword arguments, the last writer winning on every key: each key of
    the keyword arguments carries the caller's value, "api_key" included; the
    "api_key" parameter is the client's credential when the caller passes no
    "api_key"; every other key the caller does not pass keeps the builder's
    value. *)
Theorem predict_query_last_writer_wins image_path prediction_type kwargs st
    params kw dims base :
  NoDup (dict_keys kwargs) ->
  get_image_params urlparse_scheme path_exists well_formed_url
    Image_open image_size image_save new_boundary image_path = Ok (params, kw, dims) ->
  api_url (self st) = Some base ->
  exists query,
    events (snd (predict urlparse_scheme urlencode server path_exists
                   well_formed_url Image_open image_size image_save
                   new_boundary create_prediction_group image_path prediction_type kwargs st))
    = (events st
       ++ [EHttp {| req_method := POST;
                    req_url := base ++ "?" ++ urlencode query;
                    req_headers := match kw_headers kw with
                                   | Some h => h
                                   | None => []
                                   end;
                    req_data := match kw_data kw with
                                | Some d => Multipart d
                                | None => NoBody
                                end |}])%list
    /\ (forall k v, dict_get kwargs k = Some v -> dict_get query k = Some v)
    /\ (dict_get kwargs "api_key" = None ->
        dict_get query "api_key" = Some (api_key (self st)))
    /\ (forall k, k <> "api_key" -> dict_get kwargs k = None ->
        dict_get query k = dict_get params k).
Proof.
  intros Hnodup Hbuilt Hbase.
  exists (predict_params (self st) params kwargs). split; [|split; [|split]].
  - unfold predict. unfold bind at 1. unfold lift at 1. rewrite Hbuilt.
    unfold bind at 1. unfold get_self at 1.
    unfold bind at 1. unfold getattr at 1. rewrite Hbase.
    unfold bind at 1. unfold requests_post, requests_request.
    destruct (server (events st) _) as [msg|resp]; [reflexivity|].
    rewrite after_post_state_unchanged. reflexivity.
  - intros k v Hk. unfold predict_params.
    now apply dict_get_update_present.
  - intros Hk. unfold predict_params.
    rewrite dict_get_update_absent by assumption. apply dict_get_set_same.
  - intros k Hne Hk. unfold predict_params.
    rewrite dict_get_update_absent by assumption.
    apply dict_get_set_other. congruence.
Qed.

End PredictProperties.

Lemma predict_query_last_writer_wins_witness :
  exists query,
    events (snd (predict Scenario.urlparse_scheme Scenario.urlencode
                   Scenario.inference_server Scenario.path_exists
                   Scenario.well_formed_url Scenario.Image_open
                   Scenario.image_size Scenario.image_save
                   Scenario.new_boundary Scenario.create_prediction_group
                   "https://example.com/cat.jpg" None
                   [("image", "other"); ("confidence", "40")]
                   (Scenario.fresh Scenario.client)))
    = [EHttp {| req_method := POST;
                req_url := "https://detect.roboflow.com/ds/3?"
                           ++ Scenario.urlencode query;
                req_headers := []; req_data := NoBody |}]
    /\ dict_get query "image" = Some "other"
    /\ dict_get query "confidence" = Some "40"
    /\ dict_get query "api_key" = Some "KEY".
Proof.
  destruct (predict_query_last_writer_wins
              Scenario.urlparse_scheme Scenario.urlencode
              Scenario.inference_server Scenario.path_exists
              Scenario.well_formed_url Scenario.picture Scenario.Image_open
              Scenario.image_size Scenario.image_save Scenario.new_boundary
              Scenario.prediction_group Scenario.create_prediction_group
              "https://example.com/cat.jpg" None
              [("image", "other"); ("confidence", "40")]
              (Scenario.fresh Scenario.client)
              [("image", "https://example.com/cat.jpg")] no_kwargs
              [("width", "Undefined"); ("height", "Undefined")]
              "https://detect.roboflow.com/ds/3")
    as (query & Hevents & Hkw & Hkey & _).
  - repeat constructor; simpl; intuition discriminate.
  - reflexivity.
  - reflexivity.
  - exists query. split; [exact Hevents|]. split; [|split].
    + apply Hkw. reflexivity.
    + apply Hkw. reflexivity.
    + apply Hkey. reflexivity.
Defined.

(** A caller who passes [api_key="other"] replaces the credential in the
    request. *)
Lemma predict_api_key_counterexample :
  http_requests
    (events (snd (predict Scenario.urlparse_scheme Scenario.urlencode
                    Scenario.inference_server Scenario.path_exists
                    Scenario.well_formed_url Scenario.Image_open
                    Scenario.image_size Scenario.image_save
                    Scenario.new_boundary Scenario.create_prediction_group
                    "cat.jpg" None [("api_key", "other")]
                    (Scenario.fresh Scenario.client))))
  = [{| req_method := POST;
        req_url := "https://detect.roboflow.com/ds/3?api_key=other";
        req_headers := [("Content-Type",
                         "multipart/form-data; boundary=0123456789abcdef")];
        req_data :=
          Multipart {| fields := [{| field_name := "file";
                                     file_name := "imageToUpload";
                                     file_content := [Byte.xff; Byte.xd8;
                                                      Byte.xff; Byte.xd9];
                                     file_content_type := "image/jpeg" |}];
                       boundary_value := "0123456789abcdef" |} |}]
  /\ dict_get (predict_params Scenario.client [] [("api_key", "other")]) "api_key"
     <> Some (api_key Scenario.client).
Proof.
  split; [reflexivity | discriminate].
Qed.


(** ** predict_video *)

Section VideoProperties.
Context (API_URL : string)
        (urljoin : string -> string -> string)
        (server : history -> request -> string + response)
        (read_file : string -> string + list Byte.byte).


Lemma check_additional_models_ok additional_models :
  check_additional_models additional_models = Ok tt ->
  forall m, In m additional_models -> m = "clip" \/ m = "gaze".
Proof.
  induction additional_models as [|a l IH]; cbn [check_additional_models];
    intros Hok m Hin; [contradiction|].
  destruct (str_in a (dict_keys SUPPORTED_ADDITIONAL_MODELS)) eqn:Ha;
    cbn [negb] in Hok; [|discriminate].
  destruct Hin as [Heq|Hin]; [subst m|auto].
  unfold str_in in Ha. simpl in Ha.
  destruct (String.eqb_spec a "clip"); [auto|].
  destruct (String.eqb_spec a "gaze"); [auto|discriminate].
Qed.

Lemma check_additional_models_total additional_models :
  (forall m, In m additional_models -> m = "clip" \/ m = "gaze") ->
  check_additional_models additional_models = Ok tt.
Proof.
  induction additional_models as [|a l IH]; simpl; intros Hall; [reflexivity|].
  destruct (Hall a (or_introl eq_refl)) as [-> | ->]; simpl; apply IH; auto.
Qed.

Lemma append_additional_models_spec additional_models : forall models r,
  append_additional_models models additional_models = Ok r ->
  exists extra, r = (models ++ extra)%list
                /\ Forall2 supported_descriptor additional_models extra.
Proof.
  induction additional_models as [|a l IH]; cbn [append_additional_models];
    intros models r Hr.
  - injection Hr as <-. exists []. split; [now rewrite app_nil_r | constructor].
  - destruct (dict_get SUPPORTED_ADDITIONAL_MODELS a) as [d|] eqn:Ha;
      [|discriminate].
    destruct (IH _ _ Hr) as (extra & -> & Hall).
    exists (d :: extra). split; [now rewrite <- app_assoc | now constructor].
Qed.

Lemma append_additional_models_total additional_models :
  check_additional_models additional_models = Ok tt ->
  forall models, exists r, append_additional_models models additional_models = Ok r.
Proof.
  induction additional_models as [|a l IH];
    cbn [check_additional_models]; intros Hok models.
  - eexists; reflexivity.
  - destruct (str_in a (dict_keys SUPPORTED_ADDITIONAL_MODELS)) eqn:Ha;
      cbn [negb] in Hok; [|discriminate].
    unfold str_in in Ha. simpl in Ha.
    destruct (String.eqb_spec a "clip") as [->|]; [simpl; now apply IH|].
    destruct (String.eqb_spec a "gaze") as [->|]; [simpl; now apply IH|].
    discriminate.
Qed.

(** C9: [predict_video] raises, and leaves the instance and the history as
    they were (no request has been issued), whenever [fps > 5], or one of the
    additional models is neither "clip" nor "gaze", or the prediction type is
    not "batch-video". *)
Theorem predict_video_rejects_before_any_request video_path fps
    additional_models prediction_type st :
  fps > 5
  \/ (exists m, In m additional_models /\ m <> "clip" /\ m <> "gaze")
  \/ prediction_type <> "batch-video" ->
  exists e,
    predict_video API_URL urljoin server read_file video_path fps additional_models prediction_type st = (Raise e, st).
Proof.
  intros Hbad. unfold predict_video.
  unfold bind at 1. unfold get_self at 1.
  destruct (fps >? 5) eqn:Hfps; [eexists; reflexivity|].
  unfold bind at 1. unfold lift at 1.
  destruct (check_additional_models additional_models) as [[]|e] eqn:Hcheck;
    [|eexists; reflexivity].
  destruct (negb (str_in prediction_type SUPPORTED_ROBOFLOW_MODELS)) eqn:Htype;
    [eexists; reflexivity|].
  exfalso. destruct Hbad as [Hgt | [(m & Hin & Hclip & Hgaze) | Hne]].
  - rewrite Z.gtb_ltb in Hfps. apply Z.ltb_ge in Hfps. lia.
  - destruct (check_additional_models_ok _ Hcheck m Hin); contradiction.
  - apply Hne. unfold str_in in Htype. simpl in Htype.
    destruct (String.eqb_spec prediction_type "batch-video"); [assumption|discriminate].
Qed.

(** C3, where the code fails: for a video reference that starts with
    "http://" or "https://" and valid arguments, [predict_video] issues no
    request at all, not even the job submission: the local variable
    [headers] is assigned only on the upload path, so reading it for the
    submission raises [UnboundLocalError]. No job id is cached. *)
Theorem predict_video_url_raises_unbound_headers video_path fps
    additional_models prediction_type inference_type st :
  startswith video_path ["http://"; "https://"] = true ->
  fps <= 5 ->
  (forall m, In m additional_models -> m = "clip" \/ m = "gaze") ->
  prediction_type = "batch-video" ->
  resolve_type (class_name (self st)) = Ok inference_type ->
  exists st',
    predict_video API_URL urljoin server read_file video_path fps additional_models prediction_type st
    = (Raise (UnboundLocalError "headers"), st')
    /\ events st' = events st
    /\ self_job_id (self st') = self_job_id (self st).
Proof.
  intros Hurl Hfps Hmodels -> Hclass. unfold predict_video.
  unfold bind at 1. unfold get_self at 1.
  replace (fps >? 5) with false
    by (symmetry; rewrite Z.gtb_ltb; apply Z.ltb_ge; lia).
  unfold bind at 1. unfold lift at 1.
  rewrite (check_additional_models_total _ Hmodels).
  change (negb (str_in "batch-video" SUPPORTED_ROBOFLOW_MODELS)) with false.
  cbv iota.
  unfold bind at 1. unfold lift at 1. rewrite Hclass.
  unfold bind at 1. unfold set_type at 1.
  rewrite Hurl. cbv [negb].
  unfold bind at 1. unfold ret at 1.
  unfold bind at 1. unfold getattr at 1. cbn [self type].
  unfold bind at 1. unfold lift at 1.
  destruct (append_additional_models_total _
              (check_additional_models_total _ Hmodels)
              [model_descriptor (JStr (dataset_id (self st)))
                 (JStr (version (self st))) (JStr inference_type)])
    as [models Hmodels'].
  rewrite Hmodels'.
  unfold bind at 1. unfold local_var at 1. unfold raise at 1.
  eexists. split; [reflexivity|]. split; reflexivity.
Qed.

(** What a successful upload has done. *)
Lemma upload_video_ok url video_path payload st signed_url headers st1 :
  upload_video server read_file url video_path payload st
  = (Ok (signed_url, headers), st1) ->
  let request1 := {| req_method := POST; req_url := url;
                     req_headers := [("Content-Type", "application/json")];
                     req_data := payload |} in
  exists target video_data response1 answer1,
    server (events st) request1 = inr response1
    /\ json_body response1 = Some answer1
    /\ py_subscript answer1 "signed_url" = Ok signed_url
    /\ signed_url = JStr target
    /\ read_file video_path = inr video_data
    /\ headers = [("Content-Type", "application/octet-stream")]
    /\ st1 = after (EHttp (upload_request target video_data))
               (after (EHttp request1) st).
Proof.
  intros Hrun request1. unfold upload_video in Hrun.
  unfold bind at 1 in Hrun. unfold try_wrap at 1 in Hrun.
  unfold requests_request at 1 in Hrun. fold request1 in Hrun.
  destruct (server (events st) request1) as [msg|response1] eqn:Hfirst;
    [discriminate|].
  unfold bind at 1 in Hrun. unfold response_json at 1 in Hrun.
  destruct (json_body response1) as [answer1|] eqn:Hjson; [|discriminate].
  unfold ret at 1 in Hrun.
  unfold bind at 1 in Hrun. unfold lift at 1 in Hrun.
  destruct (py_subscript answer1 "signed_url") as [u|] eqn:Hsigned; [|discriminate].
  unfold bind at 1 in Hrun. unfold try_wrap at 1, open_read at 1 in Hrun.
  destruct (read_file video_path) as [msg|video_data] eqn:Hread; [discriminate|].
  unfold ret at 1 in Hrun.
  unfold bind at 1 in Hrun. unfold try_wrap at 1 in Hrun.
  unfold bind at 1 in Hrun. unfold url_of_json at 1 in Hrun.
  destruct u as [| | | |target| |]; try discriminate.
  unfold ret at 1 in Hrun. unfold requests_request at 1 in Hrun.
  fold (upload_request target video_data) in Hrun.
  cbn [events] in Hrun.
  destruct (server _ (upload_request target video_data)); [discriminate|].
  unfold ret in Hrun. injection Hrun as <- <- <-.
  exists target, video_data, response1, answer1. repeat split; assumption.
Qed.

(** A local file, valid arguments and a service that answers: the call
    returns the job id and the signed URL. *)
Lemma predict_video_local_returns video_path fps additional_models
    prediction_type st inference_type target video_data
    response1 answer1 response2 response3 answer3 job :
  fps <= 5 ->
  (forall m, In m additional_models -> m = "clip" \/ m = "gaze") ->
  prediction_type = "batch-video" ->
  resolve_type (class_name (self st)) = Ok inference_type ->
  startswith video_path ["http://"; "https://"] = false ->
  let request1 := signed_url_request API_URL urljoin (self st) video_path in
  let request2 := upload_request target video_data in
  server (events st) request1 = inr response1 ->
  json_body response1 = Some answer1 ->
  py_subscript answer1 "signed_url" = Ok (JStr target) ->
  read_file video_path = inr video_data ->
  server (events st ++ [EHttp request1])%list request2 = inr response2 ->
  (forall models,
     server (events st ++ [EHttp request1; EHttp request2])%list
       (submission_request API_URL urljoin (self st) (JStr target) models)
     = inr response3) ->
  json_body response3 = Some answer3 ->
  py_subscript answer3 "job_id" = Ok job ->
  exists st',
    predict_video API_URL urljoin server read_file video_path fps
      additional_models prediction_type st
    = (Ok (job, JStr target), st').
Proof.
  intros Hfps Hmodels -> Hclass Hlocal request1 request2 Hfirst Hjson1 Hsigned
    Hread Hsecond Hthird Hjson3 Hjob.
  unfold predict_video.
  unfold bind at 1. unfold get_self at 1.
  replace (fps >? 5) with false
    by (symmetry; rewrite Z.gtb_ltb; apply Z.ltb_ge; lia).
  unfold bind at 1. unfold lift at 1.
  rewrite (check_additional_models_total _ Hmodels).
  change (negb (str_in "batch-video" SUPPORTED_ROBOFLOW_MODELS)) with false.
  cbv iota.
  unfold bind at 1. unfold lift at 1. rewrite Hclass.
  unfold bind at 1. unfold set_type at 1.
  rewrite Hlocal. cbv [negb].
  unfold bind at 1. unfold bind at 1. unfold upload_video.
  unfold bind at 1. unfold try_wrap at 1. unfold requests_request at 1.
  cbn [events self api_key].
  fold (signed_url_request API_URL urljoin (self st) video_path).
  fold request1. rewrite Hfirst.
  unfold bind at 1. unfold response_json at 1. rewrite Hjson1. unfold ret at 1.
  unfold bind at 1. unfold lift at 1. rewrite Hsigned.
  unfold bind at 1. unfold try_wrap at 1, open_read at 1. rewrite Hread.
  unfold ret at 1.
  unfold bind at 1. unfold try_wrap at 1.
  unfold bind at 1. unfold url_of_json at 1, ret at 1.
  unfold requests_request at 1. fold (upload_request target video_data).
  fold request2. cbn [events after]. rewrite Hsecond.
  unfold ret at 1. unfold ret at 1. cbn [fst snd].
  unfold bind at 1. unfold getattr at 1. cbn [self type after].
  unfold bind at 1. unfold lift at 1.
  destruct (append_additional_models_total _
              (check_additional_models_total _ Hmodels)
              [model_descriptor (JStr (dataset_id (self st)))
                 (JStr (version (self st))) (JStr inference_type)])
    as [models Hmodels'].
  rewrite Hmodels'.
  unfold bind at 1. unfold local_var at 1, ret at 1.
  unfold bind at 1. unfold requests_request at 1.
  cbn [events self after api_key].
  fold (submission_request API_URL urljoin (self st) (JStr target) models).
  rewrite <- !app_assoc. cbn [app]. rewrite Hthird.
  unfold bind at 1. unfold response_json at 1. rewrite Hjson3. unfold ret at 1.
  unfold bind at 1. unfold lift at 1. rewrite Hjob.
  unfold bind at 1. unfold set_job_id at 1. unfold ret.
  eexists. reflexivity.
Qed.

(** What a call that returned has done: three requests, the last of which
    is the submission that was answered with the job id. *)
Lemma predict_video_returned video_path fps additional_models
    prediction_type st job source st' :
  predict_video API_URL urljoin server read_file video_path fps additional_models prediction_type st
  = (Ok (job, source), st') ->
  exists inference_type target video_data extra response1 answer1 response3 answer3,
    let o := self st in
    let models := model_descriptor (JStr (dataset_id o)) (JStr (version o))
                    (JStr inference_type) :: extra in
    let request1 := signed_url_request API_URL urljoin o video_path in
    let request2 := upload_request target video_data in
    let request3 := submission_request API_URL urljoin o source models in
    resolve_type (class_name o) = Ok inference_type
    /\ Forall2 supported_descriptor additional_models extra
    /\ events st' = (events st ++ [EHttp request1; EHttp request2; EHttp request3])%list
    /\ server (events st) request1 = inr response1
    /\ json_body response1 = Some answer1
    /\ py_subscript answer1 "signed_url" = Ok source
    /\ source = JStr target
    /\ read_file video_path = inr video_data
    /\ server (events st ++ [EHttp request1; EHttp request2])%list request3
       = inr response3
    /\ json_body response3 = Some answer3
    /\ py_subscript answer3 "job_id" = Ok job
    /\ self_job_id (self st') = Some job.
Proof.
  intros Hrun. unfold predict_video in Hrun.
  unfold bind at 1 in Hrun. unfold get_self at 1 in Hrun.
  destruct (fps >? 5); [discriminate|].
  unfold bind at 1 in Hrun. unfold lift at 1 in Hrun.
  destruct (check_additional_models additional_models) as [[]|]; [|discriminate].
  destruct (negb (str_in prediction_type SUPPORTED_ROBOFLOW_MODELS));
    [discriminate|].
  unfold bind at 1 in Hrun. unfold lift at 1 in Hrun.
  destruct (resolve_type (class_name (self st))) as [inference_type|] eqn:Hclass;
    [|discriminate].
  unfold bind at 1 in Hrun. unfold set_type at 1 in Hrun.
  set (st0 := {| self := _; events := events st |}) in Hrun.
  unfold bind at 1 in Hrun.
  destruct (negb (startswith video_path ["http://"; "https://"])).
  2:{ unfold ret at 1 in Hrun. unfold bind at 1 in Hrun.
      unfold getattr at 1 in Hrun. cbn [self type st0] in Hrun.
      unfold bind at 1 in Hrun. unfold lift at 1 in Hrun.
      destruct (append_additional_models _ additional_models); [|discriminate].
      discriminate. }
  unfold bind at 1 in Hrun.
  destruct (upload_video _ _ _ _ _ st0) as [[[signed_url headers]|e] st1] eqn:Hup;
    [|discriminate].
  apply upload_video_ok in Hup.
  destruct Hup as (target & video_data & response1 & answer1 & Hfirst & Hjson1
                   & Hsigned & Htarget & Hread & -> & ->).
  unfold ret at 1 in Hrun. cbn [fst snd] in Hrun.
  unfold bind at 1 in Hrun. unfold getattr at 1 in Hrun.
  cbn [self type st0 after] in Hrun.
  unfold bind at 1 in Hrun. unfold lift at 1 in Hrun.
  destruct (append_additional_models _ additional_models) as [models|] eqn:Hmodels;
    [|discriminate].
  apply append_additional_models_spec in Hmodels.
  destruct Hmodels as (extra & -> & Hextra).
  unfold bind at 1 in Hrun. unfold local_var at 1, ret at 1 in Hrun.
  unfold bind at 1 in Hrun. unfold requests_request at 1 in Hrun.
  cbn [events self st0 after app] in Hrun.
  fold (submission_request API_URL urljoin (self st) signed_url
          (model_descriptor (JStr (dataset_id (self st)))
             (JStr (version (self st))) (JStr inference_type) :: extra)) in Hrun.
  fold (signed_url_request API_URL urljoin (self st) video_path) in Hrun, Hfirst.
  destruct (server _ (submission_request _ _ _ _ _)) as [msg|response3] eqn:Hthird;
    [discriminate|].
  unfold bind at 1 in Hrun. unfold response_json at 1 in Hrun.
  destruct (json_body response3) as [answer3|] eqn:Hjson3; [|discriminate].
  unfold ret at 1 in Hrun.
  unfold bind at 1 in Hrun. unfold lift at 1 in Hrun.
  destruct (py_subscript answer3 "job_id") as [j|] eqn:Hjob; [|discriminate].
  unfold bind at 1 in Hrun. unfold set_job_id at 1 in Hrun.
  unfold ret in Hrun. injection Hrun as <- <- <-.
  exists inference_type, target, video_data, extra, response1, answer1,
         response3, answer3.
  cbn zeta. cbn [events self after self_job_id job_id].
  rewrite <- !app_assoc in *. cbn [app] in *.
  repeat split; assumption || reflexivity.
Qed.

(** The additional descriptors, written out: with supported names only, the
    loop appends to [models] the descriptor of each name, in order. *)
Lemma append_additional_models_supported additional_models : forall models,
  (forall m, In m additional_models -> m = "clip" \/ m = "gaze") ->
  append_additional_models models additional_models
  = Ok (models
        ++ map (fun m =>
                  if String.eqb m "clip"
                  then JObj [("model_id", JStr "clip");
                             ("model_version", JStr "1");
                             ("inference_type", JStr "clip-embed-image")]
                  else JObj [("model_id", JStr "gaze");
                             ("model_version", JStr "1");
                             ("inference_type", JStr "gaze-detection")])
            additional_models)%list.
Proof.
  induction additional_models as [|a l IH]; intros models Hall;
    cbn [append_additional_models map].
  - now rewrite app_nil_r.
  - destruct (Hall a (or_introl eq_refl)) as [-> | ->]; cbn;
      (rewrite IH by (intros m Hm; apply Hall; now right));
      now rewrite <- app_assoc.
Qed.

(** C10, where the code fails: for valid arguments the outcome depends on
    the source. For a local file, when the service answers, the third and
    last request is the job submission: a POST to the videoinfer endpoint
    whose body holds the signed URL as "input_url", 5 as "infer_fps"
    whatever [fps] was, and as "models" the descriptor of the client's own
    model (its dataset_id, its version, the inference type of its class)
    followed by the static descriptor of each additional model in the order
    requested; the call returns the "job_id" of the response, which it also
    caches, and the signed URL. For a source that is an http(s) URL there is
    no submission at all: reading the unassigned local [headers] raises
    before any request, and no job id is cached. *)
Theorem predict_video_submission_by_source video_path fps additional_models
    prediction_type st inference_type :
  fps <= 5 ->
  (forall m, In m additional_models -> m = "clip" \/ m = "gaze") ->
  prediction_type = "batch-video" ->
  (class_name (self st) = "ObjectDetectionModel"
   /\ inference_type = "object-detection")
  \/ (class_name (self st) = "ClassificationModel"
      /\ inference_type = "classification")
  \/ (class_name (self st) = "InstanceSegmentationModel"
      /\ inference_type = "instance-segmentation") ->
  let run := predict_video API_URL urljoin server read_file video_path fps
               additional_models prediction_type st in
  (startswith video_path ["http://"; "https://"] = false ->
   forall target video_data response1 answer1 response2 response3 answer3 job,
     let request1 :=
       {| req_method := POST;
          req_url := urljoin API_URL
                       ("/video_upload_signed_url?api_key=" ++ api_key (self st));
          req_headers := [("Content-Type", "application/json")];
          req_data := JsonText (JObj [("file_name", JStr video_path)]) |} in
     let request2 :=
       {| req_method := PUT; req_url := target;
          req_headers := [("Content-Type", "application/octet-stream")];
          req_data := RawBytes video_data |} in
     let request3 :=
       {| req_method := POST;
          req_url := urljoin API_URL ("/videoinfer/?api_key=" ++ api_key (self st));
          req_headers := [("Content-Type", "application/octet-stream")];
          req_data :=
            JsonText
              (JObj
                 [("input_url", JStr target);
                  ("infer_fps", JInt 5);
                  ("models",
                   JArr
                     (JObj [("model_id", JStr (dataset_id (self st)));
                            ("model_version", JStr (version (self st)));
                            ("inference_type", JStr inference_type)]
                      :: map (fun m =>
                                if String.eqb m "clip"
                                then JObj [("model_id", JStr "clip");
                                           ("model_version", JStr "1");
                                           ("inference_type",
                                            JStr "clip-embed-image")]
                                else JObj [("model_id", JStr "gaze");
                                           ("model_version", JStr "1");
                                           ("inference_type",
                                            JStr "gaze-detection")])
                           additional_models))]) |} in
     server (events st) request1 = inr response1 ->
     json_body response1 = Some answer1 ->
     py_subscript answer1 "signed_url" = Ok (JStr target) ->
     read_file video_path = inr video_data ->
     server (events st ++ [EHttp request1])%list request2 = inr response2 ->
     server (events st ++ [EHttp request1; EHttp request2])%list request3
     = inr response3 ->
     json_body response3 = Some answer3 ->
     py_subscript answer3 "job_id" = Ok job ->
     fst run = Ok (job, JStr target)
     /\ events (snd run)
        = (events st ++ [EHttp request1; EHttp request2; EHttp request3])%list
     /\ self_job_id (self (snd run)) = Some job)
  /\ (startswith video_path ["http://"; "https://"] = true ->
      fst run = Raise (UnboundLocalError "headers")
      /\ events (snd run) = events st
      /\ self_job_id (self (snd run)) = self_job_id (self st)).
Proof.
  intros Hfps Hmodels -> Hclass run.
  assert (Hresolved : resolve_type (class_name (self st)) = Ok inference_type).
  { destruct Hclass as [[-> ->] | [[-> ->] | [-> ->]]]; reflexivity. }
  assert (Hstart : forall (k : InferenceModel -> string -> M (json * json)),
            (o <- get_self ;;
             if fps >? 5
             then raise (Exception "FPS must be less than or equal to 5.")
             else
               lift (check_additional_models additional_models) ;;
               if negb (str_in "batch-video" SUPPORTED_ROBOFLOW_MODELS)
               then raise (Exception ("batch-video"
                                      ++ " is not supported for video inference."))
               else
                 resolved <- lift (resolve_type (class_name o)) ;;
                 set_type resolved ;;
                 k o resolved)%py st
            = k (self st) inference_type (snd (set_type inference_type st))).
  { intros k. unfold bind at 1. unfold get_self at 1.
    replace (fps >? 5) with false
      by (symmetry; rewrite Z.gtb_ltb; apply Z.ltb_ge; lia).
    unfold bind at 1. unfold lift at 1.
    rewrite (check_additional_models_total _ Hmodels).
    change (negb (str_in "batch-video" SUPPORTED_ROBOFLOW_MODELS)) with false.
    cbv iota. unfold bind at 1. unfold lift at 1. rewrite Hresolved.
    unfold bind at 1. reflexivity. }
  assert (Happend :
            append_additional_models
              [model_descriptor (JStr (dataset_id (self st)))
                 (JStr (version (self st))) (JStr inference_type)]
              additional_models
            = Ok (JObj [("model_id", JStr (dataset_id (self st)));
                        ("model_version", JStr (version (self st)));
                        ("inference_type", JStr inference_type)]
                  :: map (fun m =>
                            if String.eqb m "clip"
                            then JObj [("model_id", JStr "clip");
                                       ("model_version", JStr "1");
                                       ("inference_type", JStr "clip-embed-image")]
                            else JObj [("model_id", JStr "gaze");
                                       ("model_version", JStr "1");
                                       ("inference_type", JStr "gaze-detection")])
                       additional_models))
    by (now rewrite (append_additional_models_supported _ _ Hmodels)).
  split.
  - intros Hlocal target video_data response1 answer1 response2 response3
      answer3 job request1 request2 request3 Hfirst Hjson1 Hsigned Hread
      Hsecond Hthird Hjson3 Hjob.
    assert (Hrun : exists st',
              run = (Ok (job, JStr target), st')
              /\ events st'
                 = (events st
                    ++ [EHttp request1; EHttp request2; EHttp request3])%list
              /\ self_job_id (self st') = Some job).
    { unfold run, predict_video. rewrite Hstart.
      rewrite Hlocal. cbv [negb].
      unfold bind at 1. unfold bind at 1. unfold upload_video.
      unfold bind at 1. unfold try_wrap at 1. unfold requests_request at 1.
      cbn [set_type snd events self api_key].
      fold request1. rewrite Hfirst.
      unfold bind at 1. unfold response_json at 1. rewrite Hjson1.
      unfold ret at 1.
      unfold bind at 1. unfold lift at 1. rewrite Hsigned.
      unfold bind at 1. unfold try_wrap at 1, open_read at 1. rewrite Hread.
      unfold ret at 1.
      unfold bind at 1. unfold try_wrap at 1.
      unfold bind at 1. unfold url_of_json at 1, ret at 1.
      unfold requests_request at 1. fold request2.
      cbn [events after]. rewrite Hsecond.
      unfold ret at 1. unfold ret at 1. cbn [fst snd].
      unfold bind at 1. unfold getattr at 1. cbn [self type after].
      unfold bind at 1. unfold lift at 1. rewrite Happend.
      unfold bind at 1. unfold local_var at 1, ret at 1.
      unfold bind at 1. unfold requests_request at 1.
      cbn [events self after api_key]. fold request3.
      rewrite <- !app_assoc. cbn [app]. rewrite Hthird.
      unfold bind at 1. unfold response_json at 1. rewrite Hjson3.
      unfold ret at 1.
      unfold bind at 1. unfold lift at 1. rewrite Hjob.
      unfold bind at 1. unfold set_job_id at 1. unfold ret.
      eexists. split; [reflexivity|]. cbn [events self after self_job_id job_id].
      split; [|reflexivity].
      rewrite <- !app_assoc. reflexivity. }
    destruct Hrun as (st' & -> & Hevents & Hcached).
    split; [reflexivity|]. split; assumption.
  - intros Hurl.
    assert (Hrun : run = (Raise (UnboundLocalError "headers"),
                          snd (set_type inference_type st))).
    { unfold run, predict_video. rewrite Hstart.
      rewrite Hurl. cbv [negb].
      unfold bind at 1. unfold ret at 1.
      unfold bind at 1. unfold getattr at 1. cbn [set_type snd self type].
      unfold bind at 1. unfold lift at 1. rewrite Happend.
      unfold bind at 1. reflexivity. }
    rewrite Hrun. repeat split.
Qed.

End VideoProperties.

(** ** Polling *)

Lemma count_app p (h1 h2 : history) :
  count p (h1 ++ h2)%list = (count p h1 + count p h2)%nat.
Proof. unfold count. now rewrite filter_app, length_app. Qed.

Lemma count_requests p (reqs : list request) :
  (forall r, p (EHttp r) = false) -> count p (map EHttp reqs) = 0%nat.
Proof.
  intros Hp. unfold count. induction reqs as [|r reqs IH]; simpl; auto.
  now rewrite Hp.
Qed.

Section PollProperties.
Context (API_URL : string)
        (urljoin : string -> string -> string)
        (server : history -> request -> string + response).


(** With a job id cached on the instance, a single poll starts with the
    status request for the cached id, whatever its argument is. *)
Lemma poll_unfold job cached st :
  self_job_id (self st) = Some (JStr cached) ->
  poll_for_video_results API_URL urljoin server job st =
    (response <- requests_request server GET (req_url (status_request API_URL urljoin (self st) cached))
                   [("Content-Type", "application/json")] NoBody ;;
     data <- response_json response ;;
     status <- lift (py_get data "status") ;;
     if py_ne_zero status then ret (JObj []) else
     output_signed_url <- lift (py_subscript data "output_signed_url") ;;
     target <- url_of_json output_signed_url ;;
     inference_data <- requests_request server GET target
                         [("Content-Type", "application/json")] NoBody ;;
     response_json inference_data)%py st.
Proof.
  intros Hcached. unfold poll_for_video_results.
  unfold bind at 1.
  assert (Hfirst : (match job with
                    | Some j => ret (JStr j)
                    | None => getattr self_job_id "job_id"
                    end) st = (Ok (match job with
                                   | Some j => JStr j
                                   | None => JStr cached
                                   end), st)).
  { destruct job; [reflexivity|]. unfold getattr. now rewrite Hcached. }
  rewrite Hfirst.
  unfold bind at 1. unfold get_self at 1.
  unfold bind at 1. unfold getattr at 1. rewrite Hcached.
  unfold bind at 1. unfold lift at 1. reflexivity.
Qed.

(** A single poll once the status response is known. *)
Lemma poll_after_status job cached st response data status :
  self_job_id (self st) = Some (JStr cached) ->
  server (events st) (status_request API_URL urljoin (self st) cached) = inr response ->
  json_body response = Some data ->
  py_get data "status" = Ok status ->
  poll_for_video_results API_URL urljoin server job st =
    (if py_ne_zero status then ret (JObj []) else
     output_signed_url <- lift (py_subscript data "output_signed_url") ;;
     target <- url_of_json output_signed_url ;;
     inference_data <- requests_request server GET target
                         [("Content-Type", "application/json")] NoBody ;;
     response_json inference_data)%py
      (after (EHttp (status_request API_URL urljoin (self st) cached)) st).
Proof.
  intros Hcached Hserver Hdata Hstatus.
  rewrite (poll_unfold job cached st Hcached).
  unfold bind at 1. unfold requests_request at 1.
  change {| req_method := GET;
            req_url := req_url (status_request API_URL urljoin (self st) cached);
            req_headers := [("Content-Type", "application/json")];
            req_data := NoBody |} with (status_request API_URL urljoin (self st) cached).
  rewrite Hserver.
  unfold bind at 1. unfold response_json at 1. rewrite Hdata. unfold ret at 1.
  unfold bind at 1. unfold lift at 1. rewrite Hstatus. reflexivity.
Qed.

(** C1, as the code has it: given the JSON of the status response, a single
    poll returns the empty dict, after that one request, when the "status"
    is anything but 0 (1, say, or missing); when the "status" is 0 and there
    is an "output_signed_url", it issues a second GET to that URL and
    returns the JSON body of that response as it is. *)
Theorem poll_for_video_results_by_status job cached st response data status :
  self_job_id (self st) = Some (JStr cached) ->
  server (events st) (status_request API_URL urljoin (self st) cached) = inr response ->
  json_body response = Some data ->
  py_get data "status" = Ok status ->
  let st1 := after (EHttp (status_request API_URL urljoin (self st) cached)) st in
  (py_ne_zero status = true -> poll_for_video_results API_URL urljoin server job st = (Ok (JObj []), st1))
  /\ (py_ne_zero status = false ->
      forall target response2 payload,
        py_subscript data "output_signed_url" = Ok (JStr target) ->
        server (events st1) (results_request target) = inr response2 ->
        json_body response2 = Some payload ->
        poll_for_video_results API_URL urljoin server job st = (Ok payload, after (EHttp (results_request target)) st1)).
Proof.
  intros Hcached Hserver Hdata Hstatus st1.
  rewrite (poll_after_status job cached st response data status
             Hcached Hserver Hdata Hstatus).
  fold st1. split.
  - intros Hnonzero. rewrite Hnonzero. reflexivity.
  - intros Hzero target response2 payload Hurl Hsecond Hpayload.
    rewrite Hzero.
    unfold bind at 1. unfold lift at 1. rewrite Hurl.
    unfold bind at 1. unfold url_of_json at 1, ret at 1.
    unfold bind at 1. unfold requests_request at 1.
    fold (results_request target). rewrite Hsecond.
    unfold response_json. now rewrite Hpayload.
Qed.

(** C2, where the code fails: once a job id is cached on the instance, the
    status request is built from the cached id; an explicit [job_id] changes
    nothing, the call behaves as if it had been omitted. *)
Theorem poll_ignores_explicit_job_id job cached st :
  self_job_id (self st) = Some (JStr cached) ->
  poll_for_video_results API_URL urljoin server (Some job) st = poll_for_video_results API_URL urljoin server None st
  /\ exists rest,
       events (snd (poll_for_video_results API_URL urljoin server (Some job) st))
       = (events st ++ EHttp (status_request API_URL urljoin (self st) cached) :: rest)%list.
Proof.
  intros Hcached. split.
  - now rewrite !(poll_unfold _ cached st Hcached).
  - rewrite (poll_unfold _ cached st Hcached).
    unfold bind at 1. unfold requests_request at 1.
    change {| req_method := GET;
              req_url := req_url (status_request API_URL urljoin (self st) cached);
              req_headers := [("Content-Type", "application/json")];
              req_data := NoBody |} with (status_request API_URL urljoin (self st) cached).
    set (st1 := after (EHttp (status_request API_URL urljoin (self st) cached)) st).
    destruct (server (events st) _) as [msg|response];
      [exists []; reflexivity|].
    unfold bind at 1. unfold response_json at 1.
    destruct (json_body response) as [data|]; [|exists []; reflexivity].
    unfold ret at 1. unfold bind at 1. unfold lift at 1.
    destruct (py_get data "status") as [status|]; [|exists []; reflexivity].
    destruct (py_ne_zero status); [exists []; reflexivity|].
    unfold bind at 1. unfold lift at 1.
    destruct (py_subscript data "output_signed_url") as [u|];
      [|exists []; reflexivity].
    unfold bind at 1. unfold url_of_json at 1.
    destruct u as [| | | |target| |]; try (exists []; reflexivity).
    unfold ret at 1. unfold bind at 1. unfold requests_request at 1.
    exists [EHttp (results_request target)].
    destruct (server (events st1) _) as [msg|response2]; cbn [snd].
    + unfold st1, after. cbn [events]. now rewrite <- app_assoc.
    + unfold response_json. unfold st1, after.
      destruct (json_body response2); cbn [snd events]; now rewrite <- app_assoc.
Qed.

(** *** What a single poll can do to the state *)

Lemma only_requests_ret {A : Type} (a : A) : only_requests (ret a).
Proof.
  intros st r st' [= <- <-]. split; [reflexivity|].
  exists []. cbn. now rewrite app_nil_r.
Qed.

Lemma only_requests_lift {A : Type} (x : result A) : only_requests (lift x).
Proof.
  intros st r st' [= <- <-]. split; [reflexivity|].
  exists []. cbn. now rewrite app_nil_r.
Qed.

Lemma only_requests_raise {A : Type} (e : exn) : only_requests (@raise A e).
Proof. exact (only_requests_lift (Raise e)). Qed.

Lemma only_requests_getattr {A : Type} (f : InferenceModel -> option A) name :
  only_requests (getattr f name).
Proof.
  intros st r st'. unfold getattr.
  destruct (f (self st)); apply only_requests_lift.
Qed.

Lemma only_requests_get_self : only_requests get_self.
Proof. intros st. exact (only_requests_ret (self st) st). Qed.

Lemma only_requests_request m url headers data :
  only_requests (requests_request server m url headers data).
Proof.
  intros st r st'. unfold requests_request.
  destruct (server (events st) _); intros [= <- <-];
    (split; [reflexivity|]); eexists [_]; reflexivity.
Qed.

Lemma only_requests_bind {A B : Type} (m : M A) (k : A -> M B) :
  only_requests m -> (forall a, only_requests (k a)) -> only_requests (bind m k).
Proof.
  intros Hm Hk st r st'. unfold bind.
  destruct (m st) as [[a|e] st1] eqn:Hrun.
  - intros Hrest. destruct (Hm _ _ _ Hrun) as (Hself1 & reqs1 & Hev1).
    destruct (Hk a _ _ _ Hrest) as (Hself2 & reqs2 & Hev2).
    split; [congruence|]. exists (reqs1 ++ reqs2)%list.
    now rewrite Hev2, Hev1, map_app, app_assoc.
  - intros [= <- <-]. exact (Hm _ _ _ Hrun).
Qed.

(** A single poll leaves the instance alone and adds only requests to the
    history. *)
Lemma poll_only_requests job : only_requests (poll_for_video_results API_URL urljoin server job).
Proof.
  unfold poll_for_video_results.
  apply only_requests_bind;
    [destruct job; [apply only_requests_ret | apply only_requests_getattr]|].
  intros _. apply only_requests_bind; [apply only_requests_get_self|].
  intros o. apply only_requests_bind; [apply only_requests_getattr|].
  intros cached. apply only_requests_bind; [apply only_requests_lift|].
  intros query. apply only_requests_bind; [apply only_requests_request|].
  intros response. apply only_requests_bind.
  { unfold response_json. destruct (json_body response);
      [apply only_requests_ret | apply only_requests_raise]. }
  intros data. apply only_requests_bind; [apply only_requests_lift|].
  intros status. destruct (py_ne_zero status); [apply only_requests_ret|].
  apply only_requests_bind; [apply only_requests_lift|].
  intros u. apply only_requests_bind.
  { unfold url_of_json. destruct u;
      first [apply only_requests_ret | apply only_requests_raise]. }
  intros target. apply only_requests_bind; [apply only_requests_request|].
  intros inference_data. unfold response_json.
  destruct (json_body inference_data);
    [apply only_requests_ret | apply only_requests_raise].
Qed.

(** *** The blocking poll *)

Lemma poll_round_unfold attempts st :
  poll_round API_URL urljoin server attempts st =
    match poll_for_video_results API_URL urljoin server None (after (EPrint (progress_line attempts)) st) with
    | (Ok response, st') => (Ok response, after (ESleep 60) st')
    | (Raise e, st') => (Raise e, st')
    end.
Proof.
  unfold poll_round, bind, print, time_sleep, emit, ret.
  destruct (poll_for_video_results API_URL urljoin server None _) as [[response|e] st']; reflexivity.
Qed.

Lemma poll_loop_after_idle n : forall attempts st st1,
  idle_polls API_URL urljoin server n attempts st st1 ->
  forall r st2 fuel,
    poll_for_video_results API_URL urljoin server None (after (EPrint (progress_line (attempts + Z.of_nat n))) st1)
    = (Ok r, st2) ->
    py_ne_empty_dict r = true ->
    (n < fuel)%nat ->
    poll_loop API_URL urljoin server fuel attempts st
    = Some (Ok r, after (ESleep 60) st2).
Proof.
  induction n as [|n IH]; intros attempts st st1 Hidle r st2 fuel Hlast Hr Hfuel;
    inversion Hidle; subst; (destruct fuel as [|fuel]; [lia|]);
    cbn [poll_loop]; rewrite poll_round_unfold.
  - rewrite Z.add_0_r in Hlast. rewrite Hlast, Hr. reflexivity.
  - match goal with H : poll_for_video_results API_URL urljoin server None _ = (Ok (JObj []), _) |- _ => rewrite H end.
    cbn [py_ne_empty_dict].
    eapply IH; [eassumption| |assumption|lia].
    replace (attempts + 1 + Z.of_nat n) with (attempts + Z.of_nat (S n)) by lia.
    exact Hlast.
Qed.

(** What [n] idle attempts add to the history: [n] progress lines, [n] sleeps
    of 60 seconds, and requests. *)
Lemma idle_polls_added n : forall attempts st st1,
  idle_polls API_URL urljoin server n attempts st st1 ->
  self st1 = self st
  /\ exists added,
       events st1 = (events st ++ added)%list
       /\ count is_print added = n
       /\ count is_sleep added = n
       /\ (forall secs, In (ESleep secs) added -> secs = 60).
Proof.
  induction n as [|n IH]; intros attempts st st1 Hidle; inversion Hidle; subst.
  - split; [reflexivity|]. exists []. rewrite app_nil_r.
    repeat split; auto. intros secs [].
  - match goal with
    | H : poll_for_video_results API_URL urljoin server None _ = _, H' : idle_polls API_URL urljoin server n _ _ _ |- _ =>
        destruct (poll_only_requests None _ _ _ H) as (Hself & reqs & Hev);
        destruct (IH _ _ _ H') as (Hself' & added & Hev' & Hprints & Hsleeps & Hsecs)
    end.
    split; [rewrite Hself'; cbn [after self]; rewrite Hself; reflexivity|].
    exists ([EPrint (progress_line attempts)] ++ map EHttp reqs
            ++ [ESleep 60] ++ added)%list.
    split; [|split; [|split]].
    + rewrite Hev'. cbn [after events]. rewrite Hev. cbn [after events].
      now rewrite <- !app_assoc.
    + rewrite !count_app, count_requests, Hprints by reflexivity. reflexivity.
    + rewrite !count_app, count_requests, Hsleeps by reflexivity. reflexivity.
    + intros secs Hin. rewrite !in_app_iff in Hin.
      destruct Hin as [[Heq|[]] | [Hin | [[Heq|[]] | Hin]]];
        [discriminate | | now injection Heq as <- | now apply Hsecs].
      apply in_map_iff in Hin. destruct Hin as (x & Hx & _). discriminate.
Qed.

(** C6, as the code has it: when the first [n] single polls return [{}] and
    the next one returns something else, [poll_until_video_results] (given
    more than [n] rounds) returns exactly that result, after [n + 1]
    attempts: it has printed [n + 1] progress lines and slept [n + 1] times,
    60 seconds each, once after every single poll, the last one included.
    With [n = 2]: three single polls and three sleeps. *)
Theorem poll_until_returns_first_result n fuel job st st1 st2 r :
  idle_polls API_URL urljoin server n 0 st st1 ->
  poll_for_video_results API_URL urljoin server None (after (EPrint (progress_line (Z.of_nat n))) st1) = (Ok r, st2) ->
  py_ne_empty_dict r = true ->
  (n < fuel)%nat ->
  poll_until_video_results API_URL urljoin server fuel job st = Some (Ok r, after (ESleep 60) st2)
  /\ exists added,
       events (after (ESleep 60) st2) = (events st ++ added)%list
       /\ count is_print added = S n
       /\ count is_sleep added = S n
       /\ (forall secs, In (ESleep secs) added -> secs = 60)
       /\ last added (EPrint "") = ESleep 60.
Proof.
  intros Hidle Hlast Hr Hfuel.
  destruct (idle_polls_added _ _ _ _ Hidle)
    as (Hself & added & Hev & Hprints & Hsleeps & Hsecs).
  destruct (poll_only_requests None _ _ _ Hlast) as (Hself2 & reqs & Hev2).
  split.
  - unfold poll_until_video_results.
    assert (Hcached : exists cached, self_job_id (self st) = Some cached).
    { rewrite <- Hself. change (self st1)
        with (self (after (EPrint (progress_line (Z.of_nat n))) st1)).
      revert Hlast. unfold poll_for_video_results.
      unfold bind at 1. unfold getattr at 1.
      destruct (self_job_id (self (after _ st1))) as [cached|];
        [eexists; reflexivity | discriminate]. }
    destruct Hcached as [cached Hcached].
    assert (Hfirst : (match job with
                      | Some j => ret (JStr j)
                      | None => getattr self_job_id "job_id"
                      end) st = (Ok (match job with
                                     | Some j => JStr j
                                     | None => cached
                                     end), st)).
    { destruct job; [reflexivity|]. unfold getattr. now rewrite Hcached. }
    rewrite Hfirst.
    eapply poll_loop_after_idle; eassumption.
  - exists (added ++ [EPrint (progress_line (Z.of_nat n))] ++ map EHttp reqs
            ++ [ESleep 60])%list.
    split; [|split; [|split; [|split]]].
    + cbn [after events]. rewrite Hev2. cbn [after events]. rewrite Hev.
      now rewrite <- !app_assoc.
    + rewrite !count_app, count_requests, Hprints by reflexivity. cbn. lia.
    + rewrite !count_app, count_requests, Hsleeps by reflexivity. cbn. lia.
    + intros secs Hin. rewrite !in_app_iff in Hin.
      destruct Hin as [Hin | [[Heq|[]] | [Hin | [Heq|[]]]]];
        [now apply Hsecs | discriminate | | now injection Heq as <-].
      apply in_map_iff in Hin. destruct Hin as (x & Hx & _). discriminate.
    + rewrite !app_assoc. apply last_last.
Qed.

End PollProperties.

(** ** The properties on the concrete worlds *)

Lemma predict_video_rejects_before_any_request_witness :
  (exists e,
     predict_video Scenario.API_URL Scenario.urljoin Scenario.video_server
       Scenario.read_file "v.mp4" 6 [] "batch-video"
       (Scenario.fresh Scenario.client)
     = (Raise e, Scenario.fresh Scenario.client))
  /\ (exists e,
        predict_video Scenario.API_URL Scenario.urljoin Scenario.video_server
          Scenario.read_file "v.mp4" 5 ["unknown"] "batch-video"
          (Scenario.fresh Scenario.client)
        = (Raise e, Scenario.fresh Scenario.client))
  /\ (exists e,
        predict_video Scenario.API_URL Scenario.urljoin Scenario.video_server
          Scenario.read_file "v.mp4" 5 [] "stream"
          (Scenario.fresh Scenario.client)
        = (Raise e, Scenario.fresh Scenario.client)).
Proof.
  repeat split; apply predict_video_rejects_before_any_request.
  - left. lia.
  - right. left. exists "unknown".
    split; [left; reflexivity | split; discriminate].
  - right. right. discriminate.
Defined.

Lemma predict_video_url_raises_unbound_headers_witness :
  exists st',
    predict_video Scenario.API_URL Scenario.urljoin Scenario.video_server
      Scenario.read_file "https://example.com/v.mp4" 5 [] "batch-video"
      (Scenario.fresh Scenario.client)
    = (Raise (UnboundLocalError "headers"), st')
    /\ events st' = []
    /\ self_job_id (self st') = None.
Proof.
  apply (predict_video_url_raises_unbound_headers Scenario.API_URL
           Scenario.urljoin Scenario.video_server Scenario.read_file
           "https://example.com/v.mp4" 5 [] "batch-video" "object-detection"
           (Scenario.fresh Scenario.client)).
  - reflexivity.
  - lia.
  - intros m [].
  - reflexivity.
  - reflexivity.
Defined.

Lemma predict_video_submission_by_source_witness :
  (fst (predict_video Scenario.API_URL Scenario.urljoin Scenario.video_server
          Scenario.read_file "v.mp4" 3 ["gaze"; "clip"] "batch-video"
          (Scenario.fresh Scenario.client))
   = Ok (JStr "abc123", JStr "https://storage.example/upload/v.mp4")
   /\ http_requests
        (events (snd (predict_video Scenario.API_URL Scenario.urljoin
                        Scenario.video_server Scenario.read_file "v.mp4" 3
                        ["gaze"; "clip"] "batch-video"
                        (Scenario.fresh Scenario.client))))
      = [{| req_method := POST;
            req_url := "https://api.roboflow.com/video_upload_signed_url?api_key=KEY";
            req_headers := [("Content-Type", "application/json")];
            req_data := JsonText (JObj [("file_name", JStr "v.mp4")]) |};
         {| req_method := PUT;
            req_url := "https://storage.example/upload/v.mp4";
            req_headers := [("Content-Type", "application/octet-stream")];
            req_data := RawBytes [Byte.x00; Byte.x00; Byte.x00; Byte.x18] |};
         {| req_method := POST;
            req_url := "https://api.roboflow.com/videoinfer/?api_key=KEY";
            req_headers := [("Content-Type", "application/octet-stream")];
            req_data :=
              JsonText
                (JObj
                   [("input_url", JStr "https://storage.example/upload/v.mp4");
                    ("infer_fps", JInt 5);
                    ("models",
                     JArr [JObj [("model_id", JStr "ds");
                                 ("model_version", JStr "3");
                                 ("inference_type", JStr "object-detection")];
                           JObj [("model_id", JStr "gaze");
                                 ("model_version", JStr "1");
                                 ("inference_type", JStr "gaze-detection")];
                           JObj [("model_id", JStr "clip");
                                 ("model_version", JStr "1");
                                 ("inference_type", JStr "clip-embed-image")]])]) |}]
   /\ self_job_id
        (self (snd (predict_video Scenario.API_URL Scenario.urljoin
                      Scenario.video_server Scenario.read_file "v.mp4" 3
                      ["gaze"; "clip"] "batch-video"
                      (Scenario.fresh Scenario.client))))
      = Some (JStr "abc123"))
  /\ (fst (predict_video Scenario.API_URL Scenario.urljoin Scenario.video_server
             Scenario.read_file "https://example.com/v.mp4" 5 [] "batch-video"
             (Scenario.fresh Scenario.client))
      = Raise (UnboundLocalError "headers")
      /\ events (snd (predict_video Scenario.API_URL Scenario.urljoin
                        Scenario.video_server Scenario.read_file
                        "https://example.com/v.mp4" 5 [] "batch-video"
                        (Scenario.fresh Scenario.client)))
         = []
      /\ self_job_id
           (self (snd (predict_video Scenario.API_URL Scenario.urljoin
                         Scenario.video_server Scenario.read_file
                         "https://example.com/v.mp4" 5 [] "batch-video"
                         (Scenario.fresh Scenario.client))))
         = None).
Proof.
  split.
  - destruct (proj1 (predict_video_submission_by_source Scenario.API_URL
                       Scenario.urljoin Scenario.video_server Scenario.read_file
                       "v.mp4" 3 ["gaze"; "clip"] "batch-video"
                       (Scenario.fresh Scenario.client) "object-detection"
                       ltac:(lia)
                       ltac:(intros m [<-|[<-|[]]]; [now right | now left])
                       eq_refl (or_introl (conj eq_refl eq_refl)))
                eq_refl
                "https://storage.example/upload/v.mp4"
                [Byte.x00; Byte.x00; Byte.x00; Byte.x18]
                {| status_code := 200;
                   json_body := Some (JObj [("signed_url",
                                             JStr "https://storage.example/upload/v.mp4")]) |}
                (JObj [("signed_url", JStr "https://storage.example/upload/v.mp4")])
                {| status_code := 200; json_body := None |}
                {| status_code := 200;
                   json_body := Some (JObj [("job_id", JStr "abc123")]) |}
                (JObj [("job_id", JStr "abc123")])
                (JStr "abc123")
                eq_refl eq_refl eq_refl eq_refl eq_refl eq_refl eq_refl eq_refl)
      as (Hresult & Hevents & Hcached).
    split; [exact Hresult|]. split; [|exact Hcached].
    rewrite Hevents. reflexivity.
  - apply (proj2 (predict_video_submission_by_source Scenario.API_URL
                    Scenario.urljoin Scenario.video_server Scenario.read_file
                    "https://example.com/v.mp4" 5 [] "batch-video"
                    (Scenario.fresh Scenario.client) "object-detection"
                    ltac:(lia) ltac:(intros m [])
                    eq_refl (or_introl (conj eq_refl eq_refl)))).
    reflexivity.
Defined.

Lemma poll_for_video_results_by_status_witness :
  poll_for_video_results Scenario.API_URL Scenario.urljoin
    (Scenario.status_server 1) None (Scenario.fresh Scenario.client_with_job)
  = (Ok (JObj []),
     after (EHttp (status_request Scenario.API_URL Scenario.urljoin
                     Scenario.client_with_job "abc123"))
       (Scenario.fresh Scenario.client_with_job))
  /\ poll_for_video_results Scenario.API_URL Scenario.urljoin
       (Scenario.status_server 0) None (Scenario.fresh Scenario.client_with_job)
     = (Ok Scenario.frames,
        after (EHttp (results_request "http://x"))
          (after (EHttp (status_request Scenario.API_URL Scenario.urljoin
                           Scenario.client_with_job "abc123"))
             (Scenario.fresh Scenario.client_with_job))).
Proof.
  split.
  - apply (poll_for_video_results_by_status Scenario.API_URL Scenario.urljoin
             (Scenario.status_server 1) None "abc123"
             (Scenario.fresh Scenario.client_with_job)
             {| status_code := 200;
                json_body := Some (JObj [("status", JInt 1);
                                         ("output_signed_url", JStr "http://x")]) |}
             (JObj [("status", JInt 1); ("output_signed_url", JStr "http://x")])
             (JInt 1) eq_refl eq_refl eq_refl eq_refl).
    reflexivity.
  - apply (proj2 (poll_for_video_results_by_status Scenario.API_URL
                    Scenario.urljoin (Scenario.status_server 0) None "abc123"
                    (Scenario.fresh Scenario.client_with_job)
                    {| status_code := 200;
                       json_body := Some (JObj [("status", JInt 0);
                                                ("output_signed_url", JStr "http://x")]) |}
                    (JObj [("status", JInt 0); ("output_signed_url", JStr "http://x")])
                    (JInt 0) eq_refl eq_refl eq_refl eq_refl)
             eq_refl "http://x"
             {| status_code := 200; json_body := Some Scenario.frames |}
             Scenario.frames eq_refl eq_refl eq_refl).
Defined.

(** With [{"status": 1, "output_signed_url": "http://x"}] the poll returns
    [{}] and never fetches "http://x"; with [{"status": 0}] alone it raises
    [KeyError]. *)
Lemma poll_status_counterexample :
  poll_for_video_results Scenario.API_URL Scenario.urljoin
    (Scenario.status_server 1) (Some "abc123")
    (Scenario.fresh Scenario.client_with_job)
  = (Ok (JObj []),
     after (EHttp (status_request Scenario.API_URL Scenario.urljoin
                     Scenario.client_with_job "abc123"))
       (Scenario.fresh Scenario.client_with_job))
  /\ JObj [] <> Scenario.frames
  /\ fst (poll_for_video_results Scenario.API_URL Scenario.urljoin
            Scenario.bare_status_server (Some "abc123")
            (Scenario.fresh Scenario.client_with_job))
     = Raise (KeyError "output_signed_url").
Proof.
  split; [reflexivity|]. split; [discriminate | reflexivity].
Qed.

Lemma poll_ignores_explicit_job_id_witness :
  poll_for_video_results Scenario.API_URL Scenario.urljoin
    (Scenario.status_server 1) (Some "new-job")
    (Scenario.fresh Scenario.client_with_job)
  = poll_for_video_results Scenario.API_URL Scenario.urljoin
      (Scenario.status_server 1) None
      (Scenario.fresh Scenario.client_with_job)
  /\ exists rest,
       events (snd (poll_for_video_results Scenario.API_URL Scenario.urljoin
                      (Scenario.status_server 1) (Some "new-job")
                      (Scenario.fresh Scenario.client_with_job)))
       = EHttp {| req_method := GET;
                  req_url := "https://api.roboflow.com/videoinfer/?api_key=KEY&job_id=abc123";
                  req_headers := [("Content-Type", "application/json")];
                  req_data := NoBody |} :: rest.
Proof.
  apply (poll_ignores_explicit_job_id Scenario.API_URL Scenario.urljoin
           (Scenario.status_server 1) "new-job" "abc123"
           (Scenario.fresh Scenario.client_with_job)).
  reflexivity.
Defined.

Lemma poll_until_returns_first_result_witness :
  exists st',
    poll_until_video_results Scenario.API_URL Scenario.urljoin
      Scenario.pending_twice_server 3 (Some "abc123")
      (Scenario.fresh Scenario.client_with_job)
    = Some (Ok Scenario.frames, st')
    /\ count is_print (events st') = 3%nat
    /\ count is_sleep (events st') = 3%nat.
Proof.
  edestruct (poll_until_returns_first_result Scenario.API_URL Scenario.urljoin
               Scenario.pending_twice_server 2 3 (Some "abc123")
               (Scenario.fresh Scenario.client_with_job))
    as (Hrun & added & Hevents & Hprints & Hsleeps & _).
  - eapply idle_step; [lazy; reflexivity|].
    eapply idle_step; [lazy; reflexivity|].
    apply idle_done.
  - lazy. reflexivity.
  - reflexivity.
  - lia.
  - eexists. split; [exact Hrun|].
    rewrite Hevents. split; assumption.
Defined.

(** Not ready twice, then ready: three polls, and three sleeps, the third
    one after the poll that found the result. *)
Lemma poll_until_sleeps_after_final_poll_counterexample :
  exists st',
    poll_until_video_results Scenario.API_URL Scenario.urljoin
      Scenario.pending_twice_server 3 (Some "abc123")
      (Scenario.fresh Scenario.client_with_job)
    = Some (Ok Scenario.frames, st')
    /\ count is_print (events st') = 3%nat
    /\ count is_sleep (events st') <> 2%nat
    /\ last (events st') (EPrint "") = ESleep 60.
Proof.
  eexists. split; [lazy; reflexivity|].
  split; [reflexivity|]. split; [discriminate | reflexivity].
Qed.

(** * Further properties of the code *)

(** ** The constructor, continued *)

Lemma rsplit_no_separator sep s :
  occurrences sep s = 0%nat -> rsplit sep s = [s].
Proof.
  induction s as [|c s IH]; simpl; [reflexivity|].
  destruct (Ascii.eqb c sep); [discriminate|].
  intros H. now rewrite (IH H).
Qed.

Lemma rsplit_app_separator sep a b :
  occurrences sep a = 0%nat ->
  rsplit sep (a ++ String sep b) = a :: rsplit sep b.
Proof.
  induction a as [|c a IH]; simpl.
  - intros _. rewrite Ascii.eqb_refl.
    pose proof (rsplit_length sep b) as Hlen.
    destruct (rsplit sep b); [discriminate Hlen | reflexivity].
  - destruct (Ascii.eqb c sep) eqn:E; [discriminate|].
    intros H. rewrite (IH H). reflexivity.
Qed.

(** X1: for a workspace, a dataset and a version that hold no "/", the
    constructor given "workspace/dataset/version" succeeds and stores the
    dataset as [dataset_id] and the version as [version]; the identifier is
    kept whole in [id], [colors] defaults to the empty dict, and no job is
    cached. *)
Theorem init_parses_identifier cls key workspace dataset ver colors :
  occurrences "/" workspace = 0%nat ->
  occurrences "/" dataset = 0%nat ->
  occurrences "/" ver = 0%nat ->
  InferenceModel_init cls key (workspace ++ "/" ++ dataset ++ "/" ++ ver) colors
  = Ok {| class_name := cls; api_key := key;
          id := workspace ++ "/" ++ dataset ++ "/" ++ ver;
          dataset_id := dataset; version := ver;
          colors := match colors with None => [] | Some c => c end;
          api_url := None; type := None; job_id := None |}.
Proof.
  intros Hw Hd Hv. unfold InferenceModel_init.
  change (workspace ++ "/" ++ dataset ++ "/" ++ ver)
    with (workspace ++ String "/" (dataset ++ String "/" ver)).
  rewrite (rsplit_app_separator _ _ _ Hw), (rsplit_app_separator _ _ _ Hd),
    (rsplit_no_separator _ _ Hv).
  reflexivity.
Qed.

Lemma init_parses_identifier_witness :
  exists o,
    InferenceModel_init "ObjectDetectionModel" "KEY" "ws/ds/3" None = Ok o
    /\ dataset_id o = "ds" /\ version o = "3" /\ id o = "ws/ds/3".
Proof.
  eexists. split.
  - apply (init_parses_identifier "ObjectDetectionModel" "KEY" "ws" "ds" "3" None);
      reflexivity.
  - repeat split.
Defined.

(** ** Counting the requests of a method *)

Lemma at_most_lift {A : Type} (x : result A) : requests_at_most 0 (lift x).
Proof.
  intros st r st' [= <- <-]. split; [reflexivity|].
  exists []. cbn. split; [now rewrite app_nil_r | lia].
Qed.

Lemma at_most_ret {A : Type} (a : A) : requests_at_most 0 (ret a).
Proof. exact (at_most_lift (Ok a)). Qed.

Lemma at_most_raise {A : Type} (e : exn) : requests_at_most 0 (@raise A e).
Proof. exact (at_most_lift (Raise e)). Qed.

Lemma at_most_get_self : requests_at_most 0 get_self.
Proof. intros st. exact (at_most_ret (self st) st). Qed.

Lemma at_most_getattr {A : Type} (f : InferenceModel -> option A) name :
  requests_at_most 0 (getattr f name).
Proof.
  intros st. unfold getattr. destruct (f (self st)); apply at_most_lift.
Qed.

Lemma at_most_request server m url headers data :
  requests_at_most 1 (requests_request server m url headers data).
Proof.
  intros st r st'. unfold requests_request.
  destruct (server (events st) _); intros [= <- <-];
    (split; [reflexivity|]); eexists [_]; (split; [reflexivity | cbn; lia]).
Qed.

Lemma at_most_bind {A B : Type} (n k t : nat) (m : M A) (f : A -> M B) :
  requests_at_most n m -> (forall a, requests_at_most k (f a)) ->
  (n + k <= t)%nat -> requests_at_most t (bind m f).
Proof.
  intros Hm Hf Hsum st r st'. unfold bind.
  destruct (m st) as [[a|e] st1] eqn:Hrun.
  - intros Hrest. destruct (Hm _ _ _ Hrun) as (Hself1 & reqs1 & Hev1 & Hlen1).
    destruct (Hf a _ _ _ Hrest) as (Hself2 & reqs2 & Hev2 & Hlen2).
    split; [congruence|]. exists (reqs1 ++ reqs2)%list. split.
    + now rewrite Hev2, Hev1, map_app, app_assoc.
    + rewrite length_app. lia.
  - intros [= <- <-]. destruct (Hm _ _ _ Hrun) as (Hself1 & reqs1 & Hev1 & Hlen1).
    split; [assumption|]. exists reqs1. split; [assumption | lia].
Qed.

Lemma at_most_weaken {A : Type} (n t : nat) (m : M A) :
  requests_at_most n m -> (n <= t)%nat -> requests_at_most t m.
Proof.
  intros Hm Hle st r st' Hrun.
  destruct (Hm _ _ _ Hrun) as (Hself & reqs & Hev & Hlen).
  split; [assumption|]. exists reqs. split; [assumption | lia].
Qed.

Lemma at_most_try_wrap {A : Type} n prefix (m : M A) :
  requests_at_most n m -> requests_at_most n (try_wrap prefix m).
Proof.
  intros Hm st r st'. unfold try_wrap.
  destruct (m st) as [[a|e] st1] eqn:Hrun; intros [= <- <-];
    exact (Hm _ _ _ Hrun).
Qed.

Lemma at_most_response_json resp : requests_at_most 0 (response_json resp).
Proof.
  unfold response_json. destruct (json_body resp);
    [apply at_most_ret | apply at_most_raise].
Qed.

Lemma at_most_url_of_json u : requests_at_most 0 (url_of_json u).
Proof.
  unfold url_of_json. destruct u; first [apply at_most_ret | apply at_most_raise].
Qed.

(** ** Facts about the keys of a dict *)

Section DictKeys.
Variable V : Type.
Implicit Types (d kw : dict V) (k : string) (v : V).

Lemma dict_set_keys d k v :
  exists added,
    dict_keys (dict_set d k v) = (dict_keys d ++ added)%list
    /\ (In k (dict_keys d) -> added = [])
    /\ (~ In k (dict_keys d) -> added = [k]).
Proof.
  induction d as [|[k' v'] d IH]; simpl.
  - exists [k]. repeat split; tauto.
  - destruct (String.eqb_spec k k') as [Heq|Hne]; simpl.
    + exists []. rewrite app_nil_r. repeat split; intros H; auto.
      exfalso. apply H. left. congruence.
    + destruct IH as (added & Hkeys & Hin & Hout).
      exists added. rewrite Hkeys. repeat split; intros H.
      * apply Hin. destruct H as [H|H]; [congruence | assumption].
      * apply Hout. tauto.
Qed.

Lemma dict_set_keys_nodup d k v :
  NoDup (dict_keys d) -> NoDup (dict_keys (dict_set d k v)).
Proof.
  intros Hnd. destruct (dict_set_keys d k v) as (added & -> & Hin & Hout).
  destruct (in_dec string_dec k (dict_keys d)) as [H|H].
  - rewrite (Hin H), app_nil_r. assumption.
  - rewrite (Hout H). apply NoDup_app; [assumption | repeat constructor; simpl; tauto|].
    intros x Hx [<-|[]]. contradiction.
Qed.

Lemma dict_update_keys kw : forall d,
  NoDup (dict_keys d) ->
  NoDup (dict_keys (dict_update d kw))
  /\ exists added, dict_keys (dict_update d kw) = (dict_keys d ++ added)%list.
Proof.
  unfold dict_update.
  induction kw as [|[k v] kw IH]; simpl; intros d Hnd.
  - split; [assumption|]. exists []. now rewrite app_nil_r.
  - destruct (IH (dict_set d k v) (dict_set_keys_nodup d k v Hnd))
      as (Hnd' & added & Hkeys).
    split; [assumption|].
    destruct (dict_set_keys d k v) as (added0 & Hkeys0 & _).
    exists (added0 ++ added)%list. now rewrite Hkeys, Hkeys0, app_assoc.
Qed.
End DictKeys.

(** ** predict, continued *)

Section PredictEffects.
Context (urlparse_scheme : string -> string)
        (urlencode : dict string -> string)
        (server : history -> request -> string + response)
        (path_exists well_formed_url : string -> bool)
        (image : Type)
        (Image_open : string -> result image)
        (image_size : image -> Z * Z)
        (image_save : image -> Z -> string -> result (list Byte.byte))
        (new_boundary : string)
        (PredictionGroup : Type)
        (create_prediction_group :
           json -> string -> option string -> dict string -> dict string ->
           result PredictionGroup).

(** The one request of [predict]. *)
Lemma predict_unfold image_path prediction_type kwargs st params kw dims base :
  get_image_params urlparse_scheme path_exists well_formed_url
    Image_open image_size image_save new_boundary image_path
  = Ok (params, kw, dims) ->
  api_url (self st) = Some base ->
  predict urlparse_scheme urlencode server path_exists well_formed_url
    Image_open image_size image_save new_boundary create_prediction_group
    image_path prediction_type kwargs st
  = (response <- requests_post server
                   (base ++ "?" ++ urlencode (predict_params (self st) params kwargs))
                   kw ;;
     raise_for_status response ;;
     payload <- response_json response ;;
     lift (create_prediction_group payload image_path prediction_type dims
             (colors (self st))))%py st.
Proof.
  intros Hbuilt Hbase. unfold predict.
  unfold bind at 1. unfold lift at 1. rewrite Hbuilt.
  unfold bind at 1. unfold get_self at 1.
  unfold bind at 1. unfold getattr at 1. rewrite Hbase. reflexivity.
Qed.

(** X3: once the service has answered the request of [predict], the result
    is decided by the response alone: a status from 400 to 599 raises
    [HTTPError] with that status; otherwise a body that is not JSON raises;
    otherwise the result is what [create_prediction_group] makes of the
    JSON, the image reference, the prediction type, the dimensions from the
    request builder and the client's colors. *)
Theorem predict_result_of_response image_path prediction_type kwargs st
    params kw dims base resp :
  get_image_params urlparse_scheme path_exists well_formed_url
    Image_open image_size image_save new_boundary image_path
  = Ok (params, kw, dims) ->
  api_url (self st) = Some base ->
  server (events st)
    {| req_method := POST;
       req_url := base ++ "?" ++ urlencode (predict_params (self st) params kwargs);
       req_headers := match kw_headers kw with Some h => h | None => [] end;
       req_data := match kw_data kw with
                   | Some d => Multipart d
                   | None => NoBody
                   end |}
  = inr resp ->
  fst (predict urlparse_scheme urlencode server path_exists well_formed_url
         Image_open image_size image_save new_boundary create_prediction_group
         image_path prediction_type kwargs st)
  = if (400 <=? status_code resp) && (status_code resp <? 600)
    then Raise (HTTPError (status_code resp))
    else match json_body resp with
         | Some payload =>
             create_prediction_group payload image_path prediction_type dims
               (colors (self st))
         | None => Raise JSONDecodeError
         end.
Proof.
  intros Hbuilt Hbase Hanswer.
  rewrite (predict_unfold _ _ _ _ _ _ _ _ Hbuilt Hbase).
  unfold bind at 1. unfold requests_post, requests_request. rewrite Hanswer.
  unfold bind at 1. unfold raise_for_status.
  destruct ((400 <=? status_code resp) && (status_code resp <? 600));
    [reflexivity|].
  unfold ret at 1. unfold bind, response_json.
  destruct (json_body resp); reflexivity.
Qed.

(** X4: a request of [predict] that fails in transit is not repeated: the
    call raises the transport's exception after that one request. *)
Theorem predict_transport_failure_not_retried image_path prediction_type
    kwargs st params kw dims base msg :
  get_image_params urlparse_scheme path_exists well_formed_url
    Image_open image_size image_save new_boundary image_path
  = Ok (params, kw, dims) ->
  api_url (self st) = Some base ->
  let sent :=
    {| req_method := POST;
       req_url := base ++ "?" ++ urlencode (predict_params (self st) params kwargs);
       req_headers := match kw_headers kw with Some h => h | None => [] end;
       req_data := match kw_data kw with
                   | Some d => Multipart d
                   | None => NoBody
                   end |} in
  server (events st) sent = inl msg ->
  predict urlparse_scheme urlencode server path_exists well_formed_url
    Image_open image_size image_save new_boundary create_prediction_group
    image_path prediction_type kwargs st
  = (Raise (RequestException msg), after (EHttp sent) st).
Proof.
  intros Hbuilt Hbase sent Hfailed.
  rewrite (predict_unfold _ _ _ _ _ _ _ _ Hbuilt Hbase).
  unfold bind at 1. unfold requests_post, requests_request.
  fold sent. now rewrite Hfailed.
Qed.

(** X5: in the query string [predict] encodes, every parameter occurs once,
    the parameters of the request builder come first, in the builder's
    order, and "api_key" is among the parameters. *)
Theorem predict_query_keys image_path prediction_type kwargs st
    params kw dims base :
  get_image_params urlparse_scheme path_exists well_formed_url
    Image_open image_size image_save new_boundary image_path
  = Ok (params, kw, dims) ->
  api_url (self st) = Some base ->
  exists query request,
    events (snd (predict urlparse_scheme urlencode server path_exists
                   well_formed_url Image_open image_size image_save
                   new_boundary create_prediction_group
                   image_path prediction_type kwargs st))
    = (events st ++ [EHttp request])%list
    /\ req_url request = base ++ "?" ++ urlencode query
    /\ NoDup (dict_keys query)
    /\ (exists added, dict_keys query = (dict_keys params ++ added)%list)
    /\ In "api_key" (dict_keys query).
Proof.
  intros Hbuilt Hbase.
  assert (Hparams : NoDup (dict_keys params)).
  { revert Hbuilt. unfold get_image_params.
    destruct (validate_image_path _ _ _); [|discriminate].
    destruct (str_in _ _).
    - intros [= <- _ _]. repeat constructor. simpl. tauto.
    - destruct (Image_open image_path); [|discriminate].
      destruct (image_save _ _ _); [|discriminate].
      intros [= <- _ _]. constructor. }
  exists (predict_params (self st) params kwargs).
  exists {| req_method := POST;
            req_url := base ++ "?"
                       ++ urlencode (predict_params (self st) params kwargs);
            req_headers := match kw_headers kw with Some h => h | None => [] end;
            req_data := match kw_data kw with
                        | Some d => Multipart d
                        | None => NoBody
                        end |}.
  split; [|split; [reflexivity|]].
  - rewrite (predict_unfold _ _ _ _ _ _ _ _ Hbuilt Hbase).
    unfold bind at 1. unfold requests_post, requests_request.
    destruct (server (events st) _) as [msg|resp]; [reflexivity|].
    unfold bind, raise_for_status, response_json, lift, raise, ret.
    destruct ((400 <=? status_code resp) && (status_code resp <? 600));
      [reflexivity|].
    destruct (json_body resp); reflexivity.
  - unfold predict_params.
    pose proof (dict_set_keys_nodup _ params "api_key" (api_key (self st)) Hparams)
      as Hset.
    destruct (dict_update_keys _ kwargs _ Hset) as (Hnd & added & Hkeys).
    destruct (dict_set_keys _ params "api_key" (api_key (self st)))
      as (added0 & Hkeys0 & _).
    split; [assumption|]. split.
    + exists (added0 ++ added)%list. now rewrite Hkeys, Hkeys0, app_assoc.
    + rewrite Hkeys. apply in_or_app. left.
      assert (Hget : dict_get (dict_set params "api_key" (api_key (self st)))
                       "api_key" = Some (api_key (self st)))
        by apply dict_get_set_same.
      destruct (in_dec string_dec "api_key"
                  (dict_keys (dict_set params "api_key" (api_key (self st)))))
        as [Hin|Hout]; [assumption|].
      rewrite (dict_get_absent _ _ _ Hout) in Hget. discriminate.
Qed.

End PredictEffects.

(** ** The request builder, continued *)

Section BuilderShape.
Context (urlparse_scheme : string -> string)
        (path_exists well_formed_url : string -> bool)
        (image : Type)
        (Image_open : string -> result image)
        (image_size : image -> Z * Z)
        (image_save : image -> Z -> string -> result (list Byte.byte))
        (new_boundary : string).

(** X6: whatever the request builder returns, the image travels in exactly
    one place: either the reference is the one query parameter, "image", and
    there are no keyword arguments for the request, or there is no query
    parameter and the keyword arguments hold a multipart body of one part,
    named "file", with the Content-Type header of that very encoder. The
    dimensions always have the two keys "width" and "height". *)
Theorem get_image_params_shape image_path params kw dims :
  get_image_params urlparse_scheme path_exists well_formed_url
    Image_open image_size image_save new_boundary image_path
  = Ok (params, kw, dims) ->
  dict_keys dims = ["width"; "height"]
  /\ ((params = [("image", image_path)] /\ kw = no_kwargs)
      \/ (params = []
          /\ exists data,
               kw = {| kw_data := Some data;
                       kw_headers := Some [("Content-Type", content_type data)] |}
               /\ map field_name (fields data) = ["file"])).
Proof.
  unfold get_image_params.
  destruct (validate_image_path _ _ _); [|discriminate].
  destruct (str_in _ _).
  - intros [= <- <- <-]. split; [reflexivity|]. left. split; reflexivity.
  - destruct (Image_open image_path); [|discriminate].
    destruct (image_save _ _ _); [|discriminate].
    intros [= <- <- <-]. split; [reflexivity|]. right. split; [reflexivity|].
    eexists. split; reflexivity.
Qed.

End BuilderShape.

Lemma get_image_params_shape_witness :
  exists params kw dims,
    get_image_params Scenario.urlparse_scheme Scenario.path_exists
      Scenario.well_formed_url Scenario.Image_open Scenario.image_size
      Scenario.image_save Scenario.new_boundary "cat.jpg"
    = Ok (params, kw, dims)
    /\ dict_keys dims = ["width"; "height"]
    /\ ((params = [("image", "cat.jpg")] /\ kw = no_kwargs)
        \/ (params = []
            /\ exists data,
                 kw = {| kw_data := Some data;
                         kw_headers := Some [("Content-Type", content_type data)] |}
                 /\ map field_name (fields data) = ["file"])).
Proof.
  eexists _, _, _. split; [reflexivity|].
  apply (get_image_params_shape Scenario.urlparse_scheme Scenario.path_exists
           Scenario.well_formed_url Scenario.picture Scenario.Image_open
           Scenario.image_size Scenario.image_save Scenario.new_boundary
           "cat.jpg").
  reflexivity.
Defined.

(** ** predict_video, continued *)

Lemma check_additional_models_first_unsupported supported m rest :
  (forall x, In x supported -> x = "clip" \/ x = "gaze") ->
  m <> "clip" -> m <> "gaze" ->
  check_additional_models (supported ++ m :: rest)
  = Raise (Exception ("Model " ++ m ++ " is not supported for video inference.")).
Proof.
  intros Hsupported Hclip Hgaze.
  induction supported as [|x l IH]; cbn [app check_additional_models].
  - unfold str_in. simpl.
    destruct (String.eqb_spec m "clip"); [contradiction|].
    destruct (String.eqb_spec m "gaze"); [contradiction|]. reflexivity.
  - destruct (Hsupported x (or_introl eq_refl)) as [-> | ->]; simpl;
      apply IH; intros y Hy; apply Hsupported; now right.
Qed.

Lemma resolve_type_unsupported model_class :
  model_class <> "ObjectDetectionModel" ->
  model_class <> "ClassificationModel" ->
  model_class <> "InstanceSegmentationModel" ->
  resolve_type model_class
  = Raise (Exception "Model type not supported for video inference.").
Proof.
  intros H1 H2 H3. unfold resolve_type.
  destruct (String.eqb_spec model_class "ObjectDetectionModel"); [contradiction|].
  destruct (String.eqb_spec model_class "ClassificationModel"); [contradiction|].
  destruct (String.eqb_spec model_class "InstanceSegmentationModel");
    [contradiction | reflexivity].
Qed.

Lemma fps_allowed fps : fps <= 5 -> (fps >? 5) = false.
Proof. intros H. rewrite Z.gtb_ltb. apply Z.ltb_ge. lia. Qed.

Lemma submits_raise e : submits 0 (raise e).
Proof.
  intros st r st' [= <- <-]. unfold same_configuration.
  repeat split. exists []. cbn. split; [now rewrite app_nil_r | lia].
Qed.

Lemma submits_cache job source :
  submits 0 (set_job_id job ;; ret (job, source))%py.
Proof.
  intros st r st' [= <- <-]. unfold same_configuration. cbn.
  repeat split. exists []. cbn. split; [now rewrite app_nil_r | lia].
Qed.

Lemma submits_bind {A : Type} (n k t : nat) (m : M A) (f : A -> M (json * json)) :
  requests_at_most n m -> (forall a, submits k (f a)) ->
  (n + k <= t)%nat -> submits t (bind m f).
Proof.
  intros Hm Hf Hsum st r st'. unfold bind.
  destruct (m st) as [[a|e] st1] eqn:Hrun.
  - intros Hrest. destruct (Hm _ _ _ Hrun) as (Hself1 & reqs1 & Hev1 & Hlen1).
    destruct (Hf a _ _ _ Hrest) as (Hconf & Htype & (reqs2 & Hev2 & Hlen2) & Hjob).
    rewrite Hself1 in Hconf, Htype, Hjob.
    split; [assumption|]. split; [assumption|]. split; [|assumption].
    exists (reqs1 ++ reqs2)%list. split.
    + now rewrite Hev2, Hev1, map_app, app_assoc.
    + rewrite length_app. lia.
  - intros [= <- <-]. destruct (Hm _ _ _ Hrun) as (Hself1 & reqs1 & Hev1 & Hlen1).
    rewrite Hself1. unfold same_configuration. repeat split.
    exists reqs1. split; [assumption | lia].
Qed.

Section VideoEffects.
Context (API_URL : string)
        (urljoin : string -> string -> string)
        (server : history -> request -> string + response)
        (read_file : string -> string + list Byte.byte).

(** X7: the checks of [predict_video] fail in a fixed order, each with the
    instance and the history as they were: a frame rate above 5 with the FPS
    message, whatever the other arguments; else the first additional model
    that is neither "clip" nor "gaze" with a message that names it; else a
    prediction type other than "batch-video" with a message that names it. *)
Theorem predict_video_error_precedence video_path fps additional_models
    prediction_type st :
  (fps > 5 ->
   predict_video API_URL urljoin server read_file video_path fps
     additional_models prediction_type st
   = (Raise (Exception "FPS must be less than or equal to 5."), st))
  /\ (fps <= 5 ->
      forall supported m rest,
        additional_models = (supported ++ m :: rest)%list ->
        (forall x, In x supported -> x = "clip" \/ x = "gaze") ->
        m <> "clip" -> m <> "gaze" ->
        predict_video API_URL urljoin server read_file video_path fps
          additional_models prediction_type st
        = (Raise (Exception ("Model " ++ m
                             ++ " is not supported for video inference.")), st))
  /\ (fps <= 5 ->
      (forall x, In x additional_models -> x = "clip" \/ x = "gaze") ->
      prediction_type <> "batch-video" ->
      predict_video API_URL urljoin server read_file video_path fps
        additional_models prediction_type st
      = (Raise (Exception (prediction_type
                           ++ " is not supported for video inference.")), st)).
Proof.
  split; [|split].
  - intros Hfps. unfold predict_video.
    unfold bind at 1. unfold get_self at 1.
    destruct (Z.gtb_spec fps 5); [reflexivity | lia].
  - intros Hfps supported m rest -> Hsupported Hclip Hgaze.
    unfold predict_video. unfold bind at 1. unfold get_self at 1.
    rewrite (fps_allowed _ Hfps).
    unfold bind at 1. unfold lift at 1.
    now rewrite check_additional_models_first_unsupported.
  - intros Hfps Hmodels Htype.
    unfold predict_video. unfold bind at 1. unfold get_self at 1.
    rewrite (fps_allowed _ Hfps).
    unfold bind at 1. unfold lift at 1.
    rewrite (check_additional_models_total _ Hmodels).
    unfold str_in. simpl.
    destruct (String.eqb_spec prediction_type "batch-video");
      [contradiction | reflexivity].
Qed.

(** X8: with valid arguments, an instance whose class is none of
    ObjectDetectionModel, ClassificationModel and InstanceSegmentationModel
    (the base class, say) cannot run video inference: [predict_video] raises
    before any request, and [self.type] is not assigned. *)
Theorem predict_video_unsupported_class video_path fps additional_models
    prediction_type st :
  fps <= 5 ->
  (forall x, In x additional_models -> x = "clip" \/ x = "gaze") ->
  prediction_type = "batch-video" ->
  class_name (self st) <> "ObjectDetectionModel" ->
  class_name (self st) <> "ClassificationModel" ->
  class_name (self st) <> "InstanceSegmentationModel" ->
  predict_video API_URL urljoin server read_file video_path fps
    additional_models prediction_type st
  = (Raise (Exception "Model type not supported for video inference."), st).
Proof.
  intros Hfps Hmodels -> H1 H2 H3.
  unfold predict_video. unfold bind at 1. unfold get_self at 1.
  rewrite (fps_allowed _ Hfps).
  unfold bind at 1. unfold lift at 1.
  rewrite (check_additional_models_total _ Hmodels).
  change (negb (str_in "batch-video" SUPPORTED_ROBOFLOW_MODELS)) with false.
  cbv iota. unfold bind at 1. unfold lift at 1.
  now rewrite (resolve_type_unsupported _ H1 H2 H3).
Qed.

Lemma upload_video_at_most url video_path payload :
  requests_at_most 2 (upload_video server read_file url video_path payload).
Proof.
  unfold upload_video.
  apply (at_most_bind 1 1);
    [apply at_most_try_wrap, at_most_request | | lia]. intros response.
  apply (at_most_bind 0 1); [apply at_most_response_json | | lia]. intros answer.
  apply (at_most_bind 0 1); [apply at_most_lift | | lia]. intros signed_url.
  apply (at_most_bind 0 1).
  { apply at_most_try_wrap. unfold open_read.
    destruct (read_file video_path); [apply at_most_raise | apply at_most_ret]. }
  2: lia.
  intros video_data.
  apply (at_most_bind 1 0); [| intros _; apply at_most_ret | lia].
  apply at_most_try_wrap.
  apply (at_most_bind 0 1);
    [apply at_most_url_of_json | intros target; apply at_most_request | lia].
Qed.

(** Every run of [predict_video]: what it may have done. *)
Lemma predict_video_run video_path fps additional_models prediction_type
    st r st' :
  predict_video API_URL urljoin server read_file video_path fps
    additional_models prediction_type st = (r, st') ->
  same_configuration (self st) (self st')
  /\ (exists reqs,
        events st' = (events st ++ map EHttp reqs)%list
        /\ (length reqs <= 3)%nat)
  /\ match r with
     | Ok (job, _) => self_job_id (self st') = Some job
     | Raise _ => self_job_id (self st') = self_job_id (self st)
     end.
Proof.
  assert (Hquiet : forall e,
            (Raise e, st) = (r, st') ->
            same_configuration (self st) (self st')
            /\ (exists reqs,
                  events st' = (events st ++ map EHttp reqs)%list
                  /\ (length reqs <= 3)%nat)
            /\ match r with
               | Ok (job, _) => self_job_id (self st') = Some job
               | Raise _ => self_job_id (self st') = self_job_id (self st)
               end).
  { intros e [= <- <-]. unfold same_configuration. repeat split.
    exists []. cbn. split; [now rewrite app_nil_r | lia]. }
  unfold predict_video. unfold bind at 1. unfold get_self at 1.
  destruct (fps >? 5); [apply Hquiet|].
  unfold bind at 1. unfold lift at 1.
  destruct (check_additional_models additional_models) as [[]|e];
    [|apply Hquiet].
  destruct (negb (str_in prediction_type SUPPORTED_ROBOFLOW_MODELS));
    [apply Hquiet|].
  unfold bind at 1. unfold lift at 1.
  destruct (resolve_type (class_name (self st))) as [resolved|e];
    [|apply Hquiet].
  unfold bind at 1. unfold set_type at 1.
  set (st0 := {| self := _; events := events st |}).
  intros Hrun.
  match type of Hrun with
  | ?m st0 = _ => assert (Hsub : submits 3 m)
  end.
  { apply (submits_bind 2 1).
    - destruct (negb (startswith video_path ["http://"; "https://"]));
        [|apply (at_most_weaken 0); [apply at_most_ret | lia]].
      apply (at_most_bind 2 0);
        [apply upload_video_at_most | intros a; apply at_most_ret | lia].
    - intros [signed_url headers].
      apply (submits_bind 0 1); [apply at_most_getattr | | lia].
      intros inference_type.
      apply (submits_bind 0 1); [apply at_most_lift | | lia]. intros models.
      apply (submits_bind 0 1); [| | lia].
      { unfold local_var. destruct headers;
          [apply at_most_ret | apply at_most_raise]. }
      intros headers'.
      apply (submits_bind 1 0); [apply at_most_request | | lia]. intros response.
      apply (submits_bind 0 0); [apply at_most_response_json | | lia].
      intros answer.
      apply (submits_bind 0 0); [apply at_most_lift | | lia]. intros job.
      apply submits_cache.
    - lia. }
  destruct (Hsub _ _ _ Hrun) as (Hconf & _ & Hreqs & Hjob).
  split; [exact Hconf|]. split; [exact Hreqs | exact Hjob].
Qed.

(** X9: whatever its arguments and whatever the service does,
    [predict_video] adds at most three requests, and nothing else, to the
    history; it never changes the configuration of the instance; and it
    caches a job id only when it returns one: after a failure the cached
    job id is the one from before the call. *)
Theorem predict_video_effects video_path fps additional_models prediction_type st :
  let run := predict_video API_URL urljoin server read_file video_path fps
               additional_models prediction_type st in
  same_configuration (self st) (self (snd run))
  /\ (exists reqs,
        events (snd run) = (events st ++ map EHttp reqs)%list
        /\ (length reqs <= 3)%nat)
  /\ match fst run with
     | Ok (job, _) => self_job_id (self (snd run)) = Some job
     | Raise _ => self_job_id (self (snd run)) = self_job_id (self st)
     end.
Proof.
  intros run.
  apply (predict_video_run video_path fps additional_models prediction_type st).
  unfold run. now destruct (predict_video _ _ _ _ _ _ _ _ _).
Qed.

(** With valid arguments and a local file, a failing upload is the failure
    of the call. *)
Lemma predict_video_upload_raises video_path fps additional_models
    prediction_type st resolved e st1 :
  fps <= 5 ->
  (forall x, In x additional_models -> x = "clip" \/ x = "gaze") ->
  prediction_type = "batch-video" ->
  resolve_type (class_name (self st)) = Ok resolved ->
  startswith video_path ["http://"; "https://"] = false ->
  upload_video server read_file
    (urljoin API_URL ("/video_upload_signed_url?api_key=" ++ api_key (self st)))
    video_path (JsonText (JObj [("file_name", JStr video_path)]))
    (snd (set_type resolved st))
  = (Raise e, st1) ->
  predict_video API_URL urljoin server read_file video_path fps
    additional_models prediction_type st
  = (Raise e, st1).
Proof.
  intros Hfps Hmodels -> Hclass Hlocal Hupload.
  unfold predict_video. unfold bind at 1. unfold get_self at 1.
  rewrite (fps_allowed _ Hfps).
  unfold bind at 1. unfold lift at 1.
  rewrite (check_additional_models_total _ Hmodels).
  change (negb (str_in "batch-video" SUPPORTED_ROBOFLOW_MODELS)) with false.
  cbv iota. unfold bind at 1. unfold lift at 1. rewrite Hclass.
  unfold bind at 1. rewrite Hlocal. cbv [negb].
  destruct (set_type resolved st) as [done st0] eqn:Hset.
  assert (Hdone : done = Ok tt) by (revert Hset; now intros [= <- _]).
  subst done. cbn [snd] in Hupload.
  unfold bind at 1. unfold bind at 1. now rewrite Hupload.
Qed.

(** X10: the three steps of the upload fail with a message of their own,
    and nothing is sent after the step that failed. With valid arguments and
    a local file: when the request for a signed URL fails in transit, the
    call raises "Error uploading video: ..." after that one request; when
    the file cannot be read, it raises "Error reading video: ..." and sends
    no PUT; when the PUT fails in transit, it raises "There was an error
    uploading the video: ..." and submits no job. *)
Theorem predict_video_upload_errors video_path fps additional_models
    prediction_type st resolved :
  fps <= 5 ->
  (forall x, In x additional_models -> x = "clip" \/ x = "gaze") ->
  prediction_type = "batch-video" ->
  resolve_type (class_name (self st)) = Ok resolved ->
  startswith video_path ["http://"; "https://"] = false ->
  let run := predict_video API_URL urljoin server read_file video_path fps
               additional_models prediction_type st in
  let request1 := signed_url_request API_URL urljoin (self st) video_path in
  (forall msg,
     server (events st) request1 = inl msg ->
     fst run = Raise (Exception ("Error uploading video: " ++ msg))
     /\ events (snd run) = (events st ++ [EHttp request1])%list)
  /\ (forall response1 answer1 signed_url msg,
        server (events st) request1 = inr response1 ->
        json_body response1 = Some answer1 ->
        py_subscript answer1 "signed_url" = Ok signed_url ->
        read_file video_path = inl msg ->
        fst run = Raise (Exception ("Error reading video: " ++ msg))
        /\ events (snd run) = (events st ++ [EHttp request1])%list)
  /\ (forall response1 answer1 target video_data msg,
        server (events st) request1 = inr response1 ->
        json_body response1 = Some answer1 ->
        py_subscript answer1 "signed_url" = Ok (JStr target) ->
        read_file video_path = inr video_data ->
        server (events st ++ [EHttp request1])%list
          (upload_request target video_data) = inl msg ->
        fst run
        = Raise (Exception ("There was an error uploading the video: " ++ msg))
        /\ events (snd run)
           = (events st ++ [EHttp request1;
                            EHttp (upload_request target video_data)])%list).
Proof.
  intros Hfps Hmodels Htype Hclass Hlocal run request1.
  assert (Hfail : forall e st1,
            upload_video server read_file
              (urljoin API_URL
                 ("/video_upload_signed_url?api_key=" ++ api_key (self st)))
              video_path (JsonText (JObj [("file_name", JStr video_path)]))
              (snd (set_type resolved st))
            = (Raise e, st1) ->
            run = (Raise e, st1)).
  { intros e st1. apply predict_video_upload_raises; assumption. }
  split; [|split].
  - intros msg Hfirst.
    rewrite (Hfail (Exception ("Error uploading video: " ++ msg))
               (after (EHttp request1) (snd (set_type resolved st))));
      [split; reflexivity|].
    unfold upload_video. unfold bind at 1. unfold try_wrap at 1.
    unfold requests_request at 1. cbn [set_type snd events self api_key].
    fold (signed_url_request API_URL urljoin (self st) video_path).
    fold request1. now rewrite Hfirst.
  - intros response1 answer1 signed_url msg Hfirst Hjson Hsigned Hread.
    rewrite (Hfail (Exception ("Error reading video: " ++ msg))
               (after (EHttp request1) (snd (set_type resolved st))));
      [split; reflexivity|].
    unfold upload_video. unfold bind at 1. unfold try_wrap at 1.
    unfold requests_request at 1. cbn [set_type snd events self api_key].
    fold (signed_url_request API_URL urljoin (self st) video_path).
    fold request1. rewrite Hfirst.
    unfold bind at 1. unfold response_json at 1. rewrite Hjson. unfold ret at 1.
    unfold bind at 1. unfold lift at 1. rewrite Hsigned.
    unfold bind at 1. unfold try_wrap at 1, open_read at 1. now rewrite Hread.
  - intros response1 answer1 target video_data msg Hfirst Hjson Hsigned Hread
      Hput.
    rewrite (Hfail (Exception ("There was an error uploading the video: " ++ msg))
               (after (EHttp (upload_request target video_data))
                  (after (EHttp request1) (snd (set_type resolved st)))));
      [split; [reflexivity | cbn; now rewrite <- app_assoc]|].
    unfold upload_video. unfold bind at 1. unfold try_wrap at 1.
    unfold requests_request at 1. cbn [set_type snd events self api_key].
    fold (signed_url_request API_URL urljoin (self st) video_path).
    fold request1. rewrite Hfirst.
    unfold bind at 1. unfold response_json at 1. rewrite Hjson. unfold ret at 1.
    unfold bind at 1. unfold lift at 1. rewrite Hsigned.
    unfold bind at 1. unfold try_wrap at 1, open_read at 1. rewrite Hread.
    unfold ret at 1.
    unfold bind at 1. unfold try_wrap at 1.
    unfold bind at 1. unfold url_of_json at 1, ret at 1.
    unfold requests_request at 1. fold (upload_request target video_data).
    cbn [events after]. now rewrite Hput.
Qed.

End VideoEffects.

(** ** Polling, continued *)

Lemma filter_requests p (reqs : list request) :
  (forall r, p (EHttp r) = false) -> filter p (map EHttp reqs) = [].
Proof.
  intros Hp. induction reqs as [|r reqs IH]; simpl; auto. now rewrite Hp.
Qed.

Section PollEffects.
Context (API_URL : string)
        (urljoin : string -> string -> string)
        (server : history -> request -> string + response)
        (read_file : string -> string + list Byte.byte).

(** With a job id cached, the first thing a single poll adds to the history
    is the status request for the cached id. *)
Lemma poll_first_request job cached st :
  self_job_id (self st) = Some (JStr cached) ->
  exists rest,
    events (snd (poll_for_video_results API_URL urljoin server job st))
    = (events st ++ EHttp (status_request API_URL urljoin (self st) cached)
                    :: map EHttp rest)%list.
Proof.
  intros Hcached.
  rewrite (poll_unfold API_URL urljoin server job cached st Hcached).
  unfold bind at 1.
  destruct (requests_request server GET _ _ _ st) as [[response|e] st1] eqn:Hfirst.
  - assert (Hst1 : st1 = after (EHttp (status_request API_URL urljoin (self st) cached)) st).
    { revert Hfirst. unfold requests_request.
      destruct (server (events st) _); now intros [= _ <-]. }
    match goal with
    | |- context [snd (?m st1)] =>
        assert (Hrest : requests_at_most 1 m)
    end.
    { apply (at_most_bind 0 1); [apply at_most_response_json | | lia].
      intros data.
      apply (at_most_bind 0 1); [apply at_most_lift | | lia]. intros status.
      destruct (py_ne_zero status);
        [apply (at_most_weaken 0); [apply at_most_ret | lia]|].
      apply (at_most_bind 0 1); [apply at_most_lift | | lia]. intros u.
      apply (at_most_bind 0 1); [apply at_most_url_of_json | | lia].
      intros target.
      apply (at_most_bind 1 0);
        [apply at_most_request | intros x; apply at_most_response_json | lia]. }
    match goal with
    | |- context [snd (?m st1)] => destruct (m st1) as [r st2] eqn:Hrun
    end.
    destruct (Hrest _ _ _ Hrun) as (_ & rest & Hev & _).
    exists rest. cbn [snd]. rewrite Hev, Hst1. cbn [after events].
    now rewrite <- app_assoc.
  - exists []. cbn [snd map]. revert Hfirst. unfold requests_request.
    destruct (server (events st) _); now intros [= _ <-].
Qed.

(** The requests of a single poll. *)
Lemma poll_at_most job :
  requests_at_most 2 (poll_for_video_results API_URL urljoin server job).
Proof.
  unfold poll_for_video_results.
  apply (at_most_bind 0 2); [| | lia].
  { destruct job; [apply at_most_ret | apply at_most_getattr]. }
  intros _. apply (at_most_bind 0 2); [apply at_most_get_self | | lia].
  intros o. apply (at_most_bind 0 2); [apply at_most_getattr | | lia].
  intros cached. apply (at_most_bind 0 2); [apply at_most_lift | | lia].
  intros query. apply (at_most_bind 1 1); [apply at_most_request | | lia].
  intros response.
  apply (at_most_bind 0 1); [apply at_most_response_json | | lia].
  intros data. apply (at_most_bind 0 1); [apply at_most_lift | | lia].
  intros status.
  destruct (py_ne_zero status);
    [apply (at_most_weaken 0); [apply at_most_ret | lia]|].
  apply (at_most_bind 0 1); [apply at_most_lift | | lia]. intros u.
  apply (at_most_bind 0 1); [apply at_most_url_of_json | | lia]. intros target.
  apply (at_most_bind 1 0);
    [apply at_most_request | intros x; apply at_most_response_json | lia].
Qed.

(** X11: a single poll, whatever the service answers, leaves the instance
    as it is (the cached job id included) and adds at most two requests, and
    nothing else, to the history; it adds exactly one when the status it
    reads is not 0. *)
Theorem poll_for_video_results_effects job st :
  let run := poll_for_video_results API_URL urljoin server job st in
  self (snd run) = self st
  /\ (exists reqs,
        events (snd run) = (events st ++ map EHttp reqs)%list
        /\ (length reqs <= 2)%nat)
  /\ (forall cached response data status,
        self_job_id (self st) = Some (JStr cached) ->
        server (events st) (status_request API_URL urljoin (self st) cached)
        = inr response ->
        json_body response = Some data ->
        py_get data "status" = Ok status ->
        py_ne_zero status = true ->
        events (snd run)
        = (events st
           ++ [EHttp (status_request API_URL urljoin (self st) cached)])%list).
Proof.
  intros run.
  destruct (poll_at_most job st (fst run) (snd run)) as (Hself & Hreqs);
    [unfold run; now destruct (poll_for_video_results _ _ _ _ _)|].
  split; [exact Hself|]. split; [exact Hreqs|].
  intros cached response data status Hcached Hanswer Hjson Hstatus Hnonzero.
  unfold run.
  rewrite (poll_after_status API_URL urljoin server job cached st
             response data status Hcached Hanswer Hjson Hstatus).
  now rewrite Hnonzero.
Qed.

(** X12: on an instance that has no job id cached, polling fails with
    [AttributeError], and giving the job id explicitly does not help: a
    single poll raises before any request whatever its argument; the
    blocking poll called without a job id raises at once, and called with
    one it prints the first progress line and then raises. *)
Theorem poll_without_cached_job_id job fuel st :
  self_job_id (self st) = None ->
  poll_for_video_results API_URL urljoin server job st
  = (Raise (AttributeError "job_id"), st)
  /\ poll_until_video_results API_URL urljoin server fuel None st
     = Some (Raise (AttributeError "job_id"), st)
  /\ forall explicit,
       poll_until_video_results API_URL urljoin server (S fuel) (Some explicit) st
       = Some (Raise (AttributeError "job_id"),
               after (EPrint (progress_line 0)) st).
Proof.
  intros Hnone.
  assert (Hpoll : forall j st0,
            self_job_id (self st0) = None ->
            poll_for_video_results API_URL urljoin server j st0
            = (Raise (AttributeError "job_id"), st0)).
  { intros j st0 H0. unfold poll_for_video_results.
    unfold bind at 1. destruct j as [j|].
    - unfold ret at 1. unfold bind at 1. unfold get_self at 1.
      unfold bind at 1. unfold getattr at 1. now rewrite H0.
    - unfold getattr at 1. now rewrite H0. }
  split; [now apply Hpoll|]. split.
  - unfold poll_until_video_results, getattr. now rewrite Hnone.
  - intros explicit. unfold poll_until_video_results.
    unfold ret at 1. cbn [poll_loop]. rewrite poll_round_unfold.
    now rewrite Hpoll.
Qed.

(** X13: submitting and then polling: once [predict_video] has returned a
    job id that is a string, the next single poll on the instance, whatever
    its argument, first sends the status request for that job id, with the
    client's credential. *)
Theorem predict_video_then_poll video_path fps additional_models
    prediction_type st job source st' argument :
  predict_video API_URL urljoin server read_file video_path fps
    additional_models prediction_type st
  = (Ok (JStr job, source), st') ->
  exists rest,
    events (snd (poll_for_video_results API_URL urljoin server argument st'))
    = (events st' ++ EHttp (status_request API_URL urljoin (self st) job)
                     :: map EHttp rest)%list.
Proof.
  intros Hrun.
  destruct (predict_video_run API_URL urljoin server read_file _ _ _ _ _ _ _ Hrun)
    as (Hconf & _ & Hcached).
  destruct (poll_first_request argument job st' Hcached) as [rest Hrest].
  exists rest. rewrite Hrest.
  destruct Hconf as (_ & Hkey & _).
  unfold status_request. now rewrite Hkey.
Qed.

(** X14: when the service answers the submission with a job id that is not
    a string, [predict_video] returns it all the same, and every later
    single poll raises [TypeError] before any request. *)
Theorem predict_video_then_poll_non_string video_path fps additional_models
    prediction_type st job source st' argument :
  predict_video API_URL urljoin server read_file video_path fps
    additional_models prediction_type st
  = (Ok (job, source), st') ->
  (forall s, job <> JStr s) ->
  poll_for_video_results API_URL urljoin server argument st'
  = (Raise TypeError, st').
Proof.
  intros Hrun Hother.
  destruct (predict_video_run API_URL urljoin server read_file _ _ _ _ _ _ _ Hrun)
    as (_ & _ & Hcached).
  unfold poll_for_video_results. unfold bind at 1.
  assert (Hfirst : (match argument with
                    | Some j => ret (JStr j)
                    | None => getattr self_job_id "job_id"
                    end) st' = (Ok (match argument with
                                    | Some j => JStr j
                                    | None => job
                                    end), st')).
  { destruct argument; [reflexivity|]. unfold getattr. now rewrite Hcached. }
  rewrite Hfirst.
  unfold bind at 1. unfold get_self at 1.
  unfold bind at 1. unfold getattr at 1. rewrite Hcached.
  unfold bind at 1. unfold lift at 1.
  destruct job; try reflexivity. exfalso. now apply (Hother s).
Qed.

(** *** The blocking poll, continued *)

(** X15: the blocking poll never returns the empty dict. *)
Theorem poll_until_never_returns_empty fuel job st r st' :
  poll_until_video_results API_URL urljoin server fuel job st = Some (Ok r, st') ->
  py_ne_empty_dict r = true.
Proof.
  assert (Hloop : forall n attempts st0,
            poll_loop API_URL urljoin server n attempts st0 = Some (Ok r, st') ->
            py_ne_empty_dict r = true).
  { induction n as [|n IH]; intros attempts st0; cbn [poll_loop];
      [discriminate|].
    destruct (poll_round API_URL urljoin server attempts st0)
      as [[response|e] st1]; [|discriminate].
    destruct (py_ne_empty_dict response) eqn:Hresponse.
    - now intros [= <- _].
    - apply IH. }
  unfold poll_until_video_results.
  destruct (match job with
            | Some j => ret (JStr j)
            | None => getattr self_job_id "job_id"
            end st) as [[x|e] st0]; [apply Hloop | discriminate].
Qed.

(** X16: the [job_id] argument of the blocking poll has no effect: with a
    job id cached on the instance, a call with an explicit job id behaves
    as the call without one. *)
Theorem poll_until_ignores_job_id fuel explicit cached st :
  self_job_id (self st) = Some cached ->
  poll_until_video_results API_URL urljoin server fuel (Some explicit) st
  = poll_until_video_results API_URL urljoin server fuel None st.
Proof.
  intros Hcached. unfold poll_until_video_results, getattr.
  now rewrite Hcached.
Qed.

(** X17: the blocking poll has no way out while the job is pending: when
    the service answers every status request with a status other than 0,
    the loop has not returned after any number of rounds. *)
Theorem poll_until_never_returns_while_pending fuel job cached st :
  self_job_id (self st) = Some (JStr cached) ->
  (forall h, exists response data status,
     server h (status_request API_URL urljoin (self st) cached) = inr response
     /\ json_body response = Some data
     /\ py_get data "status" = Ok status
     /\ py_ne_zero status = true) ->
  poll_until_video_results API_URL urljoin server fuel job st = None.
Proof.
  intros Hcached Hpending.
  assert (Hloop : forall n attempts st0,
            self st0 = self st ->
            poll_loop API_URL urljoin server n attempts st0 = None).
  { induction n as [|n IH]; intros attempts st0 Hself; cbn [poll_loop];
      [reflexivity|].
    rewrite poll_round_unfold.
    set (st1 := after (EPrint (progress_line attempts)) st0).
    assert (Hcached1 : self_job_id (self st1) = Some (JStr cached))
      by (cbn [st1 after self]; now rewrite Hself).
    destruct (Hpending (events st1))
      as (response & data & status & Hanswer & Hjson & Hstatus & Hnonzero).
    assert (Hanswer1 : server (events st1)
                         (status_request API_URL urljoin (self st1) cached)
                       = inr response)
      by (cbn [st1 after self]; now rewrite Hself).
    rewrite (poll_after_status API_URL urljoin server None cached st1
               response data status Hcached1 Hanswer1 Hjson Hstatus).
    rewrite Hnonzero. unfold ret. cbn [py_ne_empty_dict].
    apply IH. cbn [st1 after self]. exact Hself. }
  unfold poll_until_video_results.
  assert (Hfirst : (match job with
                    | Some j => ret (JStr j)
                    | None => getattr self_job_id "job_id"
                    end) st = (Ok (match job with
                                   | Some j => JStr j
                                   | None => JStr cached
                                   end), st)).
  { destruct job; [reflexivity|]. unfold getattr. now rewrite Hcached. }
  rewrite Hfirst. now apply Hloop.
Qed.

(** What the loop has added to the history when it stops after [k]
    attempts. *)
Lemma poll_loop_trace fuel : forall attempts st r st',
  poll_loop API_URL urljoin server fuel attempts st = Some (r, st') ->
  exists k added,
    (1 <= k <= fuel)%nat
    /\ self st' = self st
    /\ events st' = (events st ++ added)%list
    /\ filter is_print added
       = map (fun i => EPrint (progress_line (attempts + Z.of_nat i))) (seq 0 k)
    /\ filter is_sleep added
       = repeat (ESleep 60) (match r with Ok _ => k | Raise _ => k - 1 end).
Proof.
  induction fuel as [|fuel IH]; intros attempts st r st'; cbn [poll_loop];
    [discriminate|].
  rewrite poll_round_unfold.
  destruct (poll_for_video_results API_URL urljoin server None
              (after (EPrint (progress_line attempts)) st))
    as [[response|e] st1] eqn:Hpoll;
    destruct (poll_at_most None _ _ _ Hpoll)
      as (Hself & reqs & Hev & _); cbn [after self events] in Hself, Hev.
  - destruct (py_ne_empty_dict response).
    + intros [= <- <-].
      exists 1%nat, ([EPrint (progress_line attempts)] ++ map EHttp reqs
                     ++ [ESleep 60])%list.
      split; [lia|]. split; [exact Hself|]. split; [|split].
      * cbn [after events]. rewrite Hev. now rewrite <- !app_assoc.
      * rewrite !filter_app, filter_requests by reflexivity. cbn.
        now rewrite Z.add_0_r.
      * rewrite !filter_app, filter_requests by reflexivity. reflexivity.
    + intros Hrest. destruct (IH _ _ _ _ Hrest)
        as (k & added & Hk & Hself' & Hev' & Hprints & Hsleeps).
      cbn [after self events] in Hself', Hev'.
      exists (S k), ([EPrint (progress_line attempts)] ++ map EHttp reqs
                     ++ [ESleep 60] ++ added)%list.
      split; [lia|]. split; [congruence|]. split; [|split].
      * rewrite Hev', Hev. now rewrite <- !app_assoc.
      * rewrite !filter_app, filter_requests, Hprints by reflexivity.
        cbn [filter is_print app seq map]. rewrite Z.add_0_r. f_equal.
        rewrite <- seq_shift, map_map. apply map_ext. intros i.
        do 2 f_equal. lia.
      * rewrite !filter_app, filter_requests, Hsleeps by reflexivity.
        cbn [filter is_sleep app].
        destruct r; [reflexivity|].
        replace (S k - 1)%nat with (S (k - 1)) by lia. reflexivity.
  - intros [= <- <-].
    exists 1%nat, ([EPrint (progress_line attempts)] ++ map EHttp reqs)%list.
    split; [lia|]. split; [exact Hself|]. split; [|split].
    + rewrite Hev. now rewrite <- !app_assoc.
    + rewrite !filter_app, filter_requests by reflexivity. cbn.
      now rewrite Z.add_0_r.
    + rewrite !filter_app, filter_requests by reflexivity. reflexivity.
Qed.

(** X18: whenever the blocking poll stops, after [k] attempts say, it has
    left the instance as it is and has printed the progress lines of the
    attempts 0 to [k - 1], which announce 0, 60, 120, ... seconds, in that
    order; every sleep lasted 60 seconds; there is one sleep per attempt
    when it returns, and one less when it raises, since the attempt that
    raises is not followed by a sleep. *)
Theorem poll_until_trace fuel job st r st' :
  poll_until_video_results API_URL urljoin server fuel job st = Some (r, st') ->
  exists k added,
    (k <= fuel)%nat
    /\ self st' = self st
    /\ events st' = (events st ++ added)%list
    /\ filter is_print added = progress_lines k
    /\ filter is_sleep added
       = repeat (ESleep 60) (match r with Ok _ => k | Raise _ => k - 1 end).
Proof.
  unfold poll_until_video_results.
  destruct (match job with
            | Some j => ret (JStr j)
            | None => getattr self_job_id "job_id"
            end st) as [[x|e] st0] eqn:Hfirst.
  - assert (Hst0 : st0 = st).
    { revert Hfirst. destruct job; [now intros [= _ <-]|].
      unfold getattr. destruct (self_job_id (self st)); now intros [= _ <-]. }
    subst st0. intros Hloop.
    destruct (poll_loop_trace _ _ _ _ _ Hloop)
      as (k & added & Hk & Hself & Hev & Hprints & Hsleeps).
    exists k, added. split; [lia|]. split; [assumption|].
    split; [assumption|]. split; [|assumption].
    rewrite Hprints. reflexivity.
  - assert (Hst0 : st0 = st).
    { revert Hfirst. destruct job; [discriminate|].
      unfold getattr. destruct (self_job_id (self st)); now intros [= _ <-]. }
    subst st0. intros [= <- <-].
    exists 0%nat, []. split; [lia|]. rewrite app_nil_r. repeat split.
Qed.

End PollEffects.

(** ** The further properties on the concrete worlds *)

Lemma predict_result_of_response_witness :
  fst (predict Scenario.urlparse_scheme Scenario.urlencode Failures.error_server
         Scenario.path_exists Scenario.well_formed_url Scenario.Image_open
         Scenario.image_size Scenario.image_save Scenario.new_boundary
         Scenario.create_prediction_group "https://example.com/cat.jpg"
         (Some "ObjectDetectionModel") [] (Scenario.fresh Scenario.client))
  = Raise (HTTPError 500)
  /\ fst (predict Scenario.urlparse_scheme Scenario.urlencode
            Scenario.inference_server Scenario.path_exists
            Scenario.well_formed_url Scenario.Image_open Scenario.image_size
            Scenario.image_save Scenario.new_boundary
            Scenario.create_prediction_group "https://example.com/cat.jpg"
            (Some "ObjectDetectionModel") [] (Scenario.fresh Scenario.client))
     = Ok {| Scenario.pg_json := JObj [("predictions", JArr [])];
             Scenario.pg_image_path := "https://example.com/cat.jpg";
             Scenario.pg_prediction_type := Some "ObjectDetectionModel";
             Scenario.pg_image_dims := [("width", "Undefined");
                                        ("height", "Undefined")];
             Scenario.pg_colors := [] |}.
Proof.
  split.
  - apply (predict_result_of_response Scenario.urlparse_scheme Scenario.urlencode
             Failures.error_server Scenario.path_exists
             Scenario.well_formed_url Scenario.picture Scenario.Image_open
             Scenario.image_size Scenario.image_save Scenario.new_boundary
             Scenario.prediction_group Scenario.create_prediction_group
             "https://example.com/cat.jpg" (Some "ObjectDetectionModel") []
             (Scenario.fresh Scenario.client)
             [("image", "https://example.com/cat.jpg")] no_kwargs
             [("width", "Undefined"); ("height", "Undefined")]
             "https://detect.roboflow.com/ds/3"
             {| status_code := 500;
                json_body := Some (JObj [("message",
                                          JStr "Internal Server Error")]) |});
      reflexivity.
  - apply (predict_result_of_response Scenario.urlparse_scheme Scenario.urlencode
             Scenario.inference_server Scenario.path_exists
             Scenario.well_formed_url Scenario.picture Scenario.Image_open
             Scenario.image_size Scenario.image_save Scenario.new_boundary
             Scenario.prediction_group Scenario.create_prediction_group
             "https://example.com/cat.jpg" (Some "ObjectDetectionModel") []
             (Scenario.fresh Scenario.client)
             [("image", "https://example.com/cat.jpg")] no_kwargs
             [("width", "Undefined"); ("height", "Undefined")]
             "https://detect.roboflow.com/ds/3"
             {| status_code := 200;
                json_body := Some (JObj [("predictions", JArr [])]) |});
      reflexivity.
Defined.

Lemma predict_transport_failure_not_retried_witness :
  exists sent,
    predict Scenario.urlparse_scheme Scenario.urlencode Failures.refusing_server
      Scenario.path_exists Scenario.well_formed_url Scenario.Image_open
      Scenario.image_size Scenario.image_save Scenario.new_boundary
      Scenario.create_prediction_group "https://example.com/cat.jpg" None []
      (Scenario.fresh Scenario.client)
    = (Raise (RequestException "Connection refused"),
       after (EHttp sent) (Scenario.fresh Scenario.client)).
Proof.
  eexists.
  apply (predict_transport_failure_not_retried Scenario.urlparse_scheme
           Scenario.urlencode Failures.refusing_server Scenario.path_exists
           Scenario.well_formed_url Scenario.picture Scenario.Image_open
           Scenario.image_size Scenario.image_save Scenario.new_boundary
           Scenario.prediction_group Scenario.create_prediction_group
           "https://example.com/cat.jpg" None []
           (Scenario.fresh Scenario.client)
           [("image", "https://example.com/cat.jpg")] no_kwargs
           [("width", "Undefined"); ("height", "Undefined")]
           "https://detect.roboflow.com/ds/3" "Connection refused");
    reflexivity.
Defined.

Lemma predict_query_keys_witness :
  exists query request,
    events (snd (predict Scenario.urlparse_scheme Scenario.urlencode
                   Scenario.inference_server Scenario.path_exists
                   Scenario.well_formed_url Scenario.Image_open
                   Scenario.image_size Scenario.image_save
                   Scenario.new_boundary Scenario.create_prediction_group
                   "https://example.com/cat.jpg" None
                   [("confidence", "40"); ("api_key", "other")]
                   (Scenario.fresh Scenario.client)))
    = [EHttp request]
    /\ req_url request
       = "https://detect.roboflow.com/ds/3?" ++ Scenario.urlencode query
    /\ NoDup (dict_keys query)
    /\ (exists added, dict_keys query = "image" :: added)
    /\ In "api_key" (dict_keys query).
Proof.
  apply (predict_query_keys Scenario.urlparse_scheme Scenario.urlencode
           Scenario.inference_server Scenario.path_exists
           Scenario.well_formed_url Scenario.picture Scenario.Image_open
           Scenario.image_size Scenario.image_save Scenario.new_boundary
           Scenario.prediction_group Scenario.create_prediction_group
           "https://example.com/cat.jpg" None
           [("confidence", "40"); ("api_key", "other")]
           (Scenario.fresh Scenario.client)
           [("image", "https://example.com/cat.jpg")] no_kwargs
           [("width", "Undefined"); ("height", "Undefined")]
           "https://detect.roboflow.com/ds/3");
    reflexivity.
Defined.

Lemma predict_video_error_precedence_witness :
  predict_video Scenario.API_URL Scenario.urljoin Scenario.video_server
    Scenario.read_file "v.mp4" 6 ["unknown"] "stream"
    (Scenario.fresh Scenario.client)
  = (Raise (Exception "FPS must be less than or equal to 5."),
     Scenario.fresh Scenario.client)
  /\ predict_video Scenario.API_URL Scenario.urljoin Scenario.video_server
       Scenario.read_file "v.mp4" 5 ["gaze"; "unknown"; "other"] "stream"
       (Scenario.fresh Scenario.client)
     = (Raise (Exception "Model unknown is not supported for video inference."),
        Scenario.fresh Scenario.client)
  /\ predict_video Scenario.API_URL Scenario.urljoin Scenario.video_server
       Scenario.read_file "v.mp4" 5 ["gaze"] "stream"
       (Scenario.fresh Scenario.client)
     = (Raise (Exception "stream is not supported for video inference."),
        Scenario.fresh Scenario.client).
Proof.
  split; [|split].
  - apply (predict_video_error_precedence Scenario.API_URL Scenario.urljoin
             Scenario.video_server Scenario.read_file "v.mp4" 6 ["unknown"]
             "stream" (Scenario.fresh Scenario.client)).
    lia.
  - apply (proj1 (proj2 (predict_video_error_precedence Scenario.API_URL
                           Scenario.urljoin Scenario.video_server
                           Scenario.read_file "v.mp4" 5
                           ["gaze"; "unknown"; "other"] "stream"
                           (Scenario.fresh Scenario.client)))
             ltac:(lia) ["gaze"] "unknown" ["other"] eq_refl).
    + intros x [<-|[]]. now right.
    + discriminate.
    + discriminate.
  - apply (proj2 (proj2 (predict_video_error_precedence Scenario.API_URL
                           Scenario.urljoin Scenario.video_server
                           Scenario.read_file "v.mp4" 5 ["gaze"] "stream"
                           (Scenario.fresh Scenario.client)))).
    + lia.
    + intros x [<-|[]]. now right.
    + discriminate.
Defined.

Lemma predict_video_unsupported_class_witness :
  predict_video Scenario.API_URL Scenario.urljoin Scenario.video_server
    Scenario.read_file "v.mp4" 5 [] "batch-video"
    (Scenario.fresh Failures.base_client)
  = (Raise (Exception "Model type not supported for video inference."),
     Scenario.fresh Failures.base_client).
Proof.
  apply (predict_video_unsupported_class Scenario.API_URL Scenario.urljoin
           Scenario.video_server Scenario.read_file "v.mp4" 5 [] "batch-video"
           (Scenario.fresh Failures.base_client));
    [lia | intros x [] | reflexivity | discriminate | discriminate | discriminate].
Defined.

Lemma predict_video_upload_errors_witness :
  fst (predict_video Scenario.API_URL Scenario.urljoin Failures.refusing_server
         Scenario.read_file "v.mp4" 5 [] "batch-video"
         (Scenario.fresh Scenario.client))
  = Raise (Exception "Error uploading video: Connection refused")
  /\ fst (predict_video Scenario.API_URL Scenario.urljoin Scenario.video_server
            Scenario.read_file "missing.mp4" 5 [] "batch-video"
            (Scenario.fresh Scenario.client))
     = Raise (Exception
                "Error reading video: No such file or directory: 'missing.mp4'")
  /\ http_requests
       (events (snd (predict_video Scenario.API_URL Scenario.urljoin
                       Scenario.video_server Scenario.read_file "missing.mp4"
                       5 [] "batch-video" (Scenario.fresh Scenario.client))))
     = [signed_url_request Scenario.API_URL Scenario.urljoin Scenario.client
          "missing.mp4"]
  /\ fst (predict_video Scenario.API_URL Scenario.urljoin
            Failures.put_refusing_server Scenario.read_file "v.mp4" 5 []
            "batch-video" (Scenario.fresh Scenario.client))
     = Raise (Exception
                "There was an error uploading the video: Connection reset by peer").
Proof.
  split; [|split; [|split]].
  - apply (proj1 (predict_video_upload_errors Scenario.API_URL Scenario.urljoin
                    Failures.refusing_server Scenario.read_file "v.mp4" 5 []
                    "batch-video" (Scenario.fresh Scenario.client)
                    "object-detection" ltac:(lia) ltac:(intros x [])
                    eq_refl eq_refl eq_refl)
             "Connection refused" eq_refl).
  - apply (proj1 (proj2 (predict_video_upload_errors Scenario.API_URL
                           Scenario.urljoin Scenario.video_server
                           Scenario.read_file "missing.mp4" 5 [] "batch-video"
                           (Scenario.fresh Scenario.client) "object-detection"
                           ltac:(lia) ltac:(intros x []) eq_refl eq_refl eq_refl))
             {| status_code := 200;
                json_body := Some (JObj [("signed_url",
                                          JStr "https://storage.example/upload/v.mp4")]) |}
             (JObj [("signed_url", JStr "https://storage.example/upload/v.mp4")])
             (JStr "https://storage.example/upload/v.mp4")
             "No such file or directory: 'missing.mp4'"
             eq_refl eq_refl eq_refl eq_refl).
  - reflexivity.
  - apply (proj2 (proj2 (predict_video_upload_errors Scenario.API_URL
                           Scenario.urljoin Failures.put_refusing_server
                           Scenario.read_file "v.mp4" 5 [] "batch-video"
                           (Scenario.fresh Scenario.client) "object-detection"
                           ltac:(lia) ltac:(intros x []) eq_refl eq_refl eq_refl))
             {| status_code := 200;
                json_body := Some (JObj [("signed_url",
                                          JStr "https://storage.example/upload/v.mp4")]) |}
             (JObj [("signed_url", JStr "https://storage.example/upload/v.mp4")])
             "https://storage.example/upload/v.mp4"
             [Byte.x00; Byte.x00; Byte.x00; Byte.x18]
             "Connection reset by peer"
             eq_refl eq_refl eq_refl eq_refl eq_refl).
Defined.

Lemma poll_for_video_results_effects_witness :
  events (snd (poll_for_video_results Scenario.API_URL Scenario.urljoin
                 (Scenario.status_server 1) None
                 (Scenario.fresh Scenario.client_with_job)))
  = [EHttp (status_request Scenario.API_URL Scenario.urljoin
              Scenario.client_with_job "abc123")].
Proof.
  apply (proj2 (proj2 (poll_for_video_results_effects Scenario.API_URL
                         Scenario.urljoin (Scenario.status_server 1) None
                         (Scenario.fresh Scenario.client_with_job)))
           "abc123"
           {| status_code := 200;
              json_body := Some (JObj [("status", JInt 1);
                                       ("output_signed_url", JStr "http://x")]) |}
           (JObj [("status", JInt 1); ("output_signed_url", JStr "http://x")])
           (JInt 1) eq_refl eq_refl eq_refl eq_refl eq_refl).
Defined.

Lemma poll_without_cached_job_id_witness :
  poll_for_video_results Scenario.API_URL Scenario.urljoin
    (Scenario.status_server 0) (Some "abc123") (Scenario.fresh Scenario.client)
  = (Raise (AttributeError "job_id"), Scenario.fresh Scenario.client)
  /\ poll_until_video_results Scenario.API_URL Scenario.urljoin
       (Scenario.status_server 0) 3 (Some "abc123")
       (Scenario.fresh Scenario.client)
     = Some (Raise (AttributeError "job_id"),
             after (EPrint "(0s): Checking for inference results")
               (Scenario.fresh Scenario.client)).
Proof.
  destruct (poll_without_cached_job_id Scenario.API_URL Scenario.urljoin
              (Scenario.status_server 0) (Some "abc123") 2
              (Scenario.fresh Scenario.client) eq_refl)
    as (Hpoll & _ & Hloop).
  split; [exact Hpoll | exact (Hloop "abc123")].
Defined.

Lemma predict_video_then_poll_witness :
  exists st' rest,
    predict_video Scenario.API_URL Scenario.urljoin Scenario.video_server
      Scenario.read_file "v.mp4" 5 [] "batch-video"
      (Scenario.fresh Scenario.client)
    = (Ok (JStr "abc123", JStr "https://storage.example/upload/v.mp4"), st')
    /\ events (snd (poll_for_video_results Scenario.API_URL Scenario.urljoin
                      Scenario.video_server None st'))
       = (events st'
          ++ EHttp (status_request Scenario.API_URL Scenario.urljoin
                      Scenario.client "abc123") :: map EHttp rest)%list.
Proof.
  assert (Hrun :
            predict_video Scenario.API_URL Scenario.urljoin Scenario.video_server
              Scenario.read_file "v.mp4" 5 [] "batch-video"
              (Scenario.fresh Scenario.client)
            = (Ok (JStr "abc123", JStr "https://storage.example/upload/v.mp4"),
               snd (predict_video Scenario.API_URL Scenario.urljoin
                      Scenario.video_server Scenario.read_file "v.mp4" 5 []
                      "batch-video" (Scenario.fresh Scenario.client))))
    by reflexivity.
  destruct (predict_video_then_poll Scenario.API_URL Scenario.urljoin
              Scenario.video_server Scenario.read_file "v.mp4" 5 []
              "batch-video" (Scenario.fresh Scenario.client) "abc123"
              (JStr "https://storage.example/upload/v.mp4") _ None Hrun)
    as [rest Hrest].
  eexists _, rest. split; [exact Hrun | exact Hrest].
Defined.

Lemma predict_video_then_poll_non_string_witness :
  exists st',
    predict_video Scenario.API_URL Scenario.urljoin Failures.numeric_job_server
      Scenario.read_file "v.mp4" 5 [] "batch-video"
      (Scenario.fresh Scenario.client)
    = (Ok (JInt 7, JStr "https://storage.example/upload/v.mp4"), st')
    /\ poll_for_video_results Scenario.API_URL Scenario.urljoin
         Failures.numeric_job_server None st'
       = (Raise TypeError, st').
Proof.
  assert (Hrun :
            predict_video Scenario.API_URL Scenario.urljoin
              Failures.numeric_job_server Scenario.read_file "v.mp4" 5 []
              "batch-video" (Scenario.fresh Scenario.client)
            = (Ok (JInt 7, JStr "https://storage.example/upload/v.mp4"),
               snd (predict_video Scenario.API_URL Scenario.urljoin
                      Failures.numeric_job_server Scenario.read_file "v.mp4" 5
                      [] "batch-video" (Scenario.fresh Scenario.client))))
    by reflexivity.
  eexists. split; [exact Hrun|].
  apply (predict_video_then_poll_non_string Scenario.API_URL Scenario.urljoin
           Failures.numeric_job_server Scenario.read_file "v.mp4" 5 []
           "batch-video" (Scenario.fresh Scenario.client) (JInt 7)
           (JStr "https://storage.example/upload/v.mp4") _ None Hrun).
  discriminate.
Defined.

Lemma poll_until_never_returns_empty_witness :
  exists r st',
    poll_until_video_results Scenario.API_URL Scenario.urljoin
      Scenario.pending_twice_server 3 None
      (Scenario.fresh Scenario.client_with_job)
    = Some (Ok r, st')
    /\ py_ne_empty_dict r = true.
Proof.
  assert (Hrun :
            poll_until_video_results Scenario.API_URL Scenario.urljoin
              Scenario.pending_twice_server 3 None
              (Scenario.fresh Scenario.client_with_job)
            = Some (Ok Scenario.frames,
                    match poll_until_video_results Scenario.API_URL
                            Scenario.urljoin Scenario.pending_twice_server 3
                            None (Scenario.fresh Scenario.client_with_job)
                    with
                    | Some run => snd run
                    | None => Scenario.fresh Scenario.client_with_job
                    end))
    by reflexivity.
  eexists _, _. split; [exact Hrun|].
  exact (poll_until_never_returns_empty Scenario.API_URL Scenario.urljoin
           Scenario.pending_twice_server 3 None
           (Scenario.fresh Scenario.client_with_job) _ _ Hrun).
Defined.

Lemma poll_until_ignores_job_id_witness :
  poll_until_video_results Scenario.API_URL Scenario.urljoin
    Scenario.pending_twice_server 3 (Some "new-job")
    (Scenario.fresh Scenario.client_with_job)
  = poll_until_video_results Scenario.API_URL Scenario.urljoin
      Scenario.pending_twice_server 3 None
      (Scenario.fresh Scenario.client_with_job).
Proof.
  apply (poll_until_ignores_job_id Scenario.API_URL Scenario.urljoin
           Scenario.pending_twice_server 3 "new-job" (JStr "abc123")
           (Scenario.fresh Scenario.client_with_job)).
  reflexivity.
Defined.

Lemma poll_until_never_returns_while_pending_witness :
  poll_until_video_results Scenario.API_URL Scenario.urljoin
    (Scenario.status_server 1) 1000 None
    (Scenario.fresh Scenario.client_with_job)
  = None.
Proof.
  apply (poll_until_never_returns_while_pending Scenario.API_URL
           Scenario.urljoin (Scenario.status_server 1) 1000 None "abc123"
           (Scenario.fresh Scenario.client_with_job)).
  - reflexivity.
  - intros h. eexists _, _, _. repeat split.
Defined.

Lemma poll_until_trace_witness :
  exists r st' added,
    poll_until_video_results Scenario.API_URL Scenario.urljoin
      Scenario.pending_twice_server 5 None
      (Scenario.fresh Scenario.client_with_job)
    = Some (r, st')
    /\ events st' = added
    /\ filter is_print added
       = [EPrint "(0s): Checking for inference results";
          EPrint "(60s): Checking for inference results";
          EPrint "(120s): Checking for inference results"]
    /\ filter is_sleep added = [ESleep 60; ESleep 60; ESleep 60].
Proof.
  assert (Hrun :
            exists run,
              poll_until_video_results Scenario.API_URL Scenario.urljoin
                Scenario.pending_twice_server 5 None
                (Scenario.fresh Scenario.client_with_job)
              = Some run)
    by (eexists; lazy; reflexivity).
  destruct Hrun as [[r st'] Hrun].
  destruct (poll_until_trace Scenario.API_URL Scenario.urljoin
              Scenario.pending_twice_server 5 None
              (Scenario.fresh Scenario.client_with_job) r st' Hrun)
    as (k & added & _ & _ & Hev & _ & _).
  exists r, st', added. split; [exact Hrun|]. split; [exact Hev|].
  cbn [Scenario.fresh events app] in Hev. subst added.
  revert Hrun. lazy. intros [= <- <-]. split; reflexivity.
Defined.
